(** * The entity-list controllers of the factory energy console

    A shallow embedding of the list-and-edit pages under
    [src/pages/data-entry] (CompanyList, CountryList, CityList,
    DistrictList, LineTypeList, LineList, MachineList, KpiList): the name
    validators, the submit handlers, the machine order handling and the
    debounced search.

    JavaScript strings are sequences of code units; the model keeps the
    code units below 256 (Rocq's [string]), read as Latin-1.  Numbers that
    the pages only use as integers (page, rowsPerPage, order) are [Z];
    [NaN] is an explicit [None] where [parseInt] can produce it. *)

From Stdlib Require Import String Ascii List ZArith NArith Lia Bool FinFun.
Import ListNotations.

Open Scope string_scope.
Open Scope Z_scope.
Open Scope list_scope.

(* ===================================================================== *)
(** ** JavaScript strings *)
(* ===================================================================== *)

Module JS.

Definition code (c : ascii) : N := N_of_ascii c.

Definition inRange (lo hi : N) (c : ascii) : bool :=
  (lo <=? code c)%N && (code c <=? hi)%N.

(** [A-Z], [a-z] and [0-9] of a regular expression without flags. *)
Definition isUpperAZ : ascii -> bool := inRange 65 90.
Definition isLowerAZ : ascii -> bool := inRange 97 122.
Definition isDigit : ascii -> bool := inRange 48 57.
Definition isHyphen (c : ascii) : bool := (code c =? 45)%N.

(** The class [\s], which is also what [trim] and [parseInt] strip:
    TAB, LF, VT, FF, CR, SPACE and, below 256, NBSP. *)
Definition isWhiteSpace (c : ascii) : bool :=
  inRange 9 13 c || (code c =? 32)%N || (code c =? 160)%N.

Definition isSpace (c : ascii) : bool := (code c =? 32)%N.

(** The Latin-1 letters with a case: 192-222 are capitals and 224-254
    small letters, the multiplication sign (215) and the division sign
    (247) apart. *)
Definition isUpperLatin (c : ascii) : bool :=
  inRange 192 222 c && negb (code c =? 215)%N.
Definition isLowerLatin (c : ascii) : bool :=
  inRange 224 254 c && negb (code c =? 247)%N.

(** [String.prototype.toUpperCase] on one code unit: a-z and the small
    Latin-1 letters move down by 32, and the sharp s (223) becomes the two
    letters SS.  The capitals of the micro sign (181) and of the y with
    diaeresis (255) are code units above 255, which this alphabet does not
    have: the two stand for their own capitals here, and like those
    capitals they are no letter A-Z, digit, hyphen or white space. *)
Definition upperChar (c : ascii) : string :=
  if isLowerAZ c || isLowerLatin c
  then String (ascii_of_N (code c - 32)) EmptyString
  else if (code c =? 223)%N then "SS"
  else String c EmptyString.

(** [String.prototype.toLowerCase] on one code unit: A-Z and the Latin-1
    capitals move up by 32. *)
Definition lowerChar (c : ascii) : ascii :=
  if isUpperAZ c || isUpperLatin c then ascii_of_N (code c + 32) else c.

Fixpoint toUpperCase (s : string) : string :=
  match s with
  | EmptyString => EmptyString
  | String c s' => String.append (upperChar c) (toUpperCase s')
  end.

Fixpoint toLowerCase (s : string) : string :=
  match s with
  | EmptyString => EmptyString
  | String c s' => String (lowerChar c) (toLowerCase s')
  end.

(** A string is truthy when it is not empty: [!s] is [isEmpty s]. *)
Definition isEmpty (s : string) : bool :=
  match s with EmptyString => true | _ => false end.

Fixpoint all (p : ascii -> bool) (s : string) : bool :=
  match s with
  | EmptyString => true
  | String c s' => p c && all p s'
  end.

Fixpoint trimStart (s : string) : string :=
  match s with
  | EmptyString => EmptyString
  | String c s' => if isWhiteSpace c then trimStart s' else s
  end.

Fixpoint trimEnd (s : string) : string :=
  match s with
  | EmptyString => EmptyString
  | String c s' =>
      let r := trimEnd s' in
      if isWhiteSpace c && isEmpty r then EmptyString else String c r
  end.

(** [String.prototype.trim]. *)
Definition trim (s : string) : string := trimEnd (trimStart s).

Fixpoint startsWith (p s : string) : bool :=
  match p, s with
  | EmptyString, _ => true
  | String a p', String b s' => Ascii.eqb a b && startsWith p' s'
  | String _ _, EmptyString => false
  end.

(** [String.prototype.includes]: [sub] occurs somewhere in [s]. *)
Fixpoint includes (s sub : string) : bool :=
  startsWith sub s ||
  match s with
  | EmptyString => false
  | String _ s' => includes s' sub
  end.

(** *** parseInt *)

(** Value of a code unit as a digit of the given radix. *)
Definition digitValue (radix : Z) (c : ascii) : option Z :=
  let v :=
    if isDigit c then Some (Z.of_N (code c) - 48)
    else if isLowerAZ c then Some (Z.of_N (code c) - 97 + 10)
    else if isUpperAZ c then Some (Z.of_N (code c) - 65 + 10)
    else None in
  match v with
  | Some d => if d <? radix then Some d else None
  | None => None
  end.

(** The longest prefix of digits, read left to right; [seen] tells
    whether at least one digit was consumed. *)
Fixpoint digits (radix : Z) (s : string) (acc : Z) (seen : bool)
  : option Z :=
  match s with
  | EmptyString => if seen then Some acc else None
  | String c s' =>
      match digitValue radix c with
      | Some d => digits radix s' (acc * radix + d) true
      | None => if seen then Some acc else None
      end
  end.

(** [parseInt(s)] without a radix: leading white space is skipped, one
    sign is read, a [0x]/[0X] prefix selects radix 16, and the longest
    digit prefix is converted.  [None] is [NaN].  The model keeps the
    mathematical integer ([-0] is [0]; beyond 2^53 JavaScript rounds to
    the nearest double, which stays an integer of the same magnitude
    class). *)
Definition parseInt (s : string) : option Z :=
  let s1 := trimStart s in
  let '(sign, s2) :=
    match s1 with
    | String "-" r => (-1, r)
    | String "+" r => (1, r)
    | _ => (1, s1)
    end in
  let '(radix, s3) :=
    match s2 with
    | String "0" (String "x" r) => (16, r)
    | String "0" (String "X" r) => (16, r)
    | _ => (10, s2)
    end in
  match digits radix s3 0 false with
  | Some n => Some (sign * n)
  | None => None
  end.

(** [x || d] for a number [x]: [NaN] and [0] are falsy. *)
Definition orDefault (x : option Z) (d : Z) : Z :=
  match x with
  | Some n => if n =? 0 then d else n
  | None => d
  end.

End JS.

(* ===================================================================== *)
(** ** The remote data gateway *)
(* ===================================================================== *)

Module Gateway.

(** JSON values of the columns the pages read and write. *)
Inductive Value :=
| VNull
| VNum (n : Z)
| VStr (s : string).

(** An object literal such as [{ name: trimmedName, created_by: user.id }],
    and also a row of a table. *)
Definition Fields := list (string * Value).
Definition Row := Fields.

Fixpoint get (k : string) (r : Fields) : Value :=
  match r with
  | [] => VNull
  | (k', v) :: r' => if String.eqb k k' then v else get k r'
  end.

(** The error object of a rejected call. *)
Record PgError := { code : string; message : string }.

(** The calls a submit handler awaits. *)
Inductive Request :=
| Select (table : string) (eqs : Fields) (neqId : option string)
    (* .select('id').eq(..)...[.neq('id', ..)].maybeSingle() *)
| SelectOrders (lineId : string)
    (* .from('machine').select('order').eq('line_id', ..).order('order') *)
| Update (table : string) (fields : Fields) (id : string)
| Insert (table : string) (fields : Fields).

Inductive Response :=
| Matching (rows : list Row)
| Failure (e : PgError)
| Success.

Definition Backend := Request -> Response.

(** [maybeSingle]: the row when exactly one matches, [null] when none
    does, and an error (so again no data) when several do. *)
Definition maybeSingle (r : Response) : option Row :=
  match r with
  | Matching [row] => Some row
  | _ => None
  end.

(** The [error] member of the answer to an insert or update. *)
Definition writeError (r : Response) : option PgError :=
  match r with
  | Failure e => Some e
  | _ => None
  end.

(** The list query of the debounced search; [count: 'exact'] is always
    requested. *)
Record ListQuery := {
  l_table : string;
  l_ilike : option (string * string);   (* column, pattern *)
  l_orderBy : string;
  l_ascending : bool;
  l_from : Z;
  l_to : Z;
  l_countExact : bool
}.

(** What the awaited list query resolves to:
    [{ data, count, error }]. *)
Inductive ListResult :=
| ListOk (data : option (list Row)) (count : option Z)
| ListErr (e : PgError).

(** *** Semantics of the gateway over a table snapshot *)

Definition valueEqb (a b : Value) : bool :=
  match a, b with
  | VNum x, VNum y => x =? y
  | VStr x, VStr y => String.eqb x y
  | _, _ => false
  end.

Definition valueNeqb (a b : Value) : bool :=
  match a, b with
  | VNum x, VNum y => negb (x =? y)
  | VStr x, VStr y => negb (String.eqb x y)
  | _, _ => false
  end.

(** Modelled from the spec: the remote gateway's
    [existsByName(name, parent_scope?, excludeId?)]; the gateway itself
    is a hosted service.  A row is selected when every [eq] filter holds
    and its id differs from the excluded one. *)
Definition selected (eqs : Fields) (neqId : option string) (r : Row)
  : bool :=
  forallb (fun kv => valueEqb (get (fst kv) r) (snd kv)) eqs &&
  match neqId with
  | Some i => valueNeqb (get "id" r) (VStr i)
  | None => true
  end.

Definition runSelect (rows : list Row) (eqs : Fields)
  (neqId : option string) : list Row :=
  filter (selected eqs neqId) rows.

(** The LIKE pattern language of the gateway's database: [%] matches any
    sequence, [_] any single character, a backslash makes the next
    character literal.  The gateway reads [*] in a pattern as [%]. *)
Definition isPercent (c : ascii) : bool := (JS.code c =? 37)%N.
Definition isStar (c : ascii) : bool := (JS.code c =? 42)%N.
Definition isUnderscore (c : ascii) : bool := (JS.code c =? 95)%N.
Definition isBackslash (c : ascii) : bool := (JS.code c =? 92)%N.

(** The characters of a search term that are not taken literally. *)
Definition isMeta (c : ascii) : bool :=
  isPercent c || isStar c || isUnderscore c || isBackslash c.

Fixpoint starToPercent (p : string) : string :=
  match p with
  | EmptyString => EmptyString
  | String c p' =>
      String (if isStar c then "%"%char else c) (starToPercent p')
  end.

Fixpoint likeMatch (p : string) (s : string) {struct p} : bool :=
  match p with
  | EmptyString => JS.isEmpty s
  | String c p' =>
      if isPercent c then
        (fix star (s : string) : bool :=
           likeMatch p' s ||
           match s with
           | EmptyString => false
           | String _ s' => star s'
           end) s
      else if isUnderscore c then
        match s with
        | String _ s' => likeMatch p' s'
        | EmptyString => false
        end
      else if isBackslash c then
        match p' with
        | String e p'' =>
            match s with
            | String a s' => Ascii.eqb e a && likeMatch p'' s'
            | EmptyString => false
            end
        | EmptyString => false
        end
      else
        match s with
        | String a s' => Ascii.eqb c a && likeMatch p' s'
        | EmptyString => false
        end
  end.

(** The gateway's [ilike] filter: LIKE up to letter case. *)
Definition ilike (pattern s : string) : bool :=
  likeMatch (JS.toLowerCase (starToPercent pattern)) (JS.toLowerCase s).

Definition matches (q : ListQuery) (r : Row) : bool :=
  match l_ilike q with
  | None => true
  | Some (col, pattern) =>
      match get col r with
      | VStr s => ilike pattern s
      | _ => false
      end
  end.

(** Column order: numbers by value, strings by code unit, nulls after
    every value. *)
Definition valueLeb (a b : Value) : bool :=
  match a, b with
  | _, VNull => true
  | VNull, _ => false
  | VNum x, VNum y => x <=? y
  | VNum _, VStr _ => true
  | VStr _, VNum _ => false
  | VStr x, VStr y => String.leb x y
  end.

Definition precedes (col : string) (ascending : bool) (a b : Row) : bool :=
  if ascending then valueLeb (get col a) (get col b)
  else valueLeb (get col b) (get col a).

Fixpoint insertSorted (le : Row -> Row -> bool) (x : Row) (l : list Row)
  : list Row :=
  match l with
  | [] => [x]
  | y :: l' => if le x y then x :: l else y :: insertSorted le x l'
  end.

Fixpoint sortRows (le : Row -> Row -> bool) (l : list Row) : list Row :=
  match l with
  | [] => []
  | x :: l' => insertSorted le x (sortRows le l')
  end.

(** [range(from, to)]: the rows at the indices [from .. to], both
    included. *)
Definition window (from to : Z) (l : list Row) : list Row :=
  firstn (Z.to_nat (to - from + 1)) (skipn (Z.to_nat from) l).

(** The filtered and sorted result a list query ranges over. *)
Definition matching (rows : list Row) (q : ListQuery) : list Row :=
  sortRows (precedes (l_orderBy q) (l_ascending q))
           (filter (matches q) rows).

(** Modelled from the spec: the remote gateway's
    [list(filter, order, range) -> (rows, total_count)]; the gateway
    itself is a hosted service.  The filter is applied, the result is
    ordered, the requested window is cut out, and the count is that of
    all matching rows. *)
Definition runList (rows : list Row) (q : ListQuery) : ListResult :=
  let all := matching rows q in
  ListOk (Some (window (l_from q) (l_to q) all))
         (Some (Z.of_nat (length all))).

(** A backend that answers selects from a table snapshot and lets
    [write] decide inserts and updates. *)
Definition serve (rows : list Row) (write : Request -> option PgError)
  : Backend :=
  fun r =>
    match r with
    | Select _ eqs neqId => Matching (runSelect rows eqs neqId)
    | SelectOrders lineId =>
        Matching (runSelect rows [("line_id", VStr lineId)] None)
    | Update _ _ _ | Insert _ _ =>
        match write r with
        | Some e => Failure e
        | None => Success
        end
    end.

End Gateway.

(* ===================================================================== *)
(** ** State shared by the create/edit dialogs *)
(* ===================================================================== *)

(** The session's user; the handlers read only [user.id]. *)
Record User := { user_id : string }.

(** What one run of a submit handler leaves behind: the component state,
    the gateway calls it awaited, in order, and whether it asked for the
    list to be refreshed ([debouncedSearch(searchTerm)]). *)
Record Outcome (S : Type) := mkOutcome {
  state : S;
  requests : list Gateway.Request;
  refresh : bool
}.
Arguments mkOutcome {S} _ _ _.
Arguments state {S} _.
Arguments requests {S} _.
Arguments refresh {S} _.

Module Dialog.

(** [error], [success], [openDialog], [editingX] and [formData] of a
    page; [F] is the shape of the form and [R] that of the edited row. *)
Record State (F R : Type) := mk {
  error : option string;
  success : option string;
  openDialog : bool;
  editing : option R;
  formData : F
}.
Arguments mk {F R} _ _ _ _ _.
Arguments error {F R} _.
Arguments success {F R} _.
Arguments openDialog {F R} _.
Arguments editing {F R} _.
Arguments formData {F R} _.

Section Setters.
Context {F R : Type}.

Definition setError (e : option string) (st : State F R) : State F R :=
  mk e (success st) (openDialog st) (editing st) (formData st).

Definition setSuccess (m : string) (st : State F R) : State F R :=
  mk (error st) (Some m) (openDialog st) (editing st) (formData st).

Definition setFormData (f : F) (st : State F R) : State F R :=
  mk (error st) (success st) (openDialog st) (editing st) f.

(** [handleCloseDialog], with the page's empty form. *)
Definition close (empty : F) (st : State F R) : State F R :=
  mk None (success st) false None empty.

(** [handleEdit]. *)
Definition edit (row : R) (f : F) (st : State F R) : State F R :=
  mk None (success st) true (Some row) f.
End Setters.

End Dialog.

(** The two allow-lists of the name validators. *)
Module Regex.

(** [/^[A-Z\s]*$/.test(name)] *)
Definition lettersSpaces (name : string) : bool :=
  JS.all (fun c => JS.isUpperAZ c || JS.isWhiteSpace c) name.

(** [/^[A-Z0-9\s-]*$/.test(name)] *)
Definition lettersDigitsSpacesHyphen (name : string) : bool :=
  JS.all (fun c => JS.isUpperAZ c || JS.isDigit c || JS.isWhiteSpace c
                   || JS.isHyphen c) name.

End Regex.

(** [editingX?.id] used as a condition: the id when a row is being edited
    and its id is a non-empty string. *)
Definition truthyId {R : Type} (id : R -> string) (e : option R)
  : option string :=
  match e with
  | Some r => if JS.isEmpty (id r) then None else Some (id r)
  | None => None
  end.

(* ===================================================================== *)
(** ** CompanyList, CountryList, LineTypeList *)
(* ===================================================================== *)

(** The three pages differ only in the table name and in the wording of
    their messages, which [Labels] collects. *)
Module NameForm.

Import Gateway Dialog.

Record Item := { id : string; name : string }.
Record FormData := { f_name : string }.
Definition State := Dialog.State FormData Item.

Record Labels := {
  table : string;
  invalidFormat : string;
  alreadyExists : string;
  saveFailed : string;
  updated : string;
  added : string
}.

Definition validateName : string -> bool := Regex.lettersSpaces.

Definition handleNameChange (value : string) (st : State) : State :=
  let upperValue := JS.toUpperCase value in
  let st := setFormData {| f_name := upperValue |} st in
  if negb (validateName upperValue)
  then setError (Some "Only English letters (A-Z) and spaces are allowed") st
  else setError None st.

Definition handleCloseDialog : State -> State :=
  close {| f_name := "" |}.

Definition handleEdit (row : Item) : State -> State :=
  edit row {| f_name := name row |}.

Definition handleSubmit (L : Labels) (gw : Backend) (user : option User)
  (st : State) : Outcome State :=
  match user with
  | None =>
      mkOutcome
        (setError (Some "You must be logged in to perform this action") st)
        [] false
  | Some u =>
      if negb (validateName (f_name (formData st))) then
        mkOutcome (setError (Some (invalidFormat L)) st) [] false
      else
        let trimmedName := JS.trim (f_name (formData st)) in
        let query :=
          Select (table L) [("name", VStr trimmedName)]
                 (truthyId id (editing st)) in
        match maybeSingle (gw query) with
        | Some _ =>
            mkOutcome (setError (Some (alreadyExists L)) st) [query] false
        | None =>
            let write :=
              match editing st with
              | Some row =>
                  Update (table L)
                         [("name", VStr trimmedName);
                          ("updated_by", VStr (user_id u))]
                         (id row)
              | None =>
                  Insert (table L)
                         [("name", VStr trimmedName);
                          ("created_by", VStr (user_id u))]
              end in
            match writeError (gw write) with
            | Some _ =>
                mkOutcome (setError (Some (saveFailed L)) st)
                          [query; write] false
            | None =>
                let done_ :=
                  match editing st with
                  | Some _ => updated L
                  | None => added L
                  end in
                mkOutcome (handleCloseDialog (setSuccess done_ st))
                          [query; write] true
            end
        end
  end.

End NameForm.

Module CompanyList.
Definition labels : NameForm.Labels :=
  {| NameForm.table := "company";
     NameForm.invalidFormat := "Invalid company name format";
     NameForm.alreadyExists := "A company with this name already exists";
     NameForm.saveFailed := "Failed to save company. Please try again.";
     NameForm.updated := "Company updated successfully";
     NameForm.added := "Company added successfully" |}.
Definition validateCompanyName := NameForm.validateName.
Definition handleNameChange := NameForm.handleNameChange.
Definition handleSubmit := NameForm.handleSubmit labels.
End CompanyList.

Module CountryList.
Definition labels : NameForm.Labels :=
  {| NameForm.table := "country";
     NameForm.invalidFormat := "Invalid country name format";
     NameForm.alreadyExists := "A country with this name already exists";
     NameForm.saveFailed := "Failed to save country. Please try again.";
     NameForm.updated := "Country updated successfully";
     NameForm.added := "Country added successfully" |}.
Definition validateCountryName := NameForm.validateName.
Definition handleNameChange := NameForm.handleNameChange.
Definition handleSubmit := NameForm.handleSubmit labels.
End CountryList.

Module LineTypeList.
Definition labels : NameForm.Labels :=
  {| NameForm.table := "line_type";
     NameForm.invalidFormat := "Invalid line type name format";
     NameForm.alreadyExists := "A line type with this name already exists";
     NameForm.saveFailed := "Failed to save line type. Please try again.";
     NameForm.updated := "Line type updated successfully";
     NameForm.added := "Line type added successfully" |}.
Definition validateLineTypeName := NameForm.validateName.
Definition handleNameChange := NameForm.handleNameChange.
Definition handleSubmit := NameForm.handleSubmit labels.
End LineTypeList.

(* ===================================================================== *)
(** ** CityList, DistrictList *)
(* ===================================================================== *)

(** A name under one parent: [country_id] for a city, [city_id] for a
    district.  The two pages differ in the table, the parent column and
    the wording of their messages. *)
Module ScopedForm.

Import Gateway Dialog.

Record Item := { id : string; name : string; parent_id : string }.
Record FormData := { f_name : string; f_parent_id : string }.
Definition State := Dialog.State FormData Item.

Record Labels := {
  table : string;
  parentColumn : string;
  invalidFormat : string;
  selectParent : string;
  alreadyExists : string;
  saveFailed : string;
  updated : string;
  added : string
}.

Definition validateName : string -> bool := Regex.lettersSpaces.

Definition handleNameChange (value : string) (st : State) : State :=
  let upperValue := JS.toUpperCase value in
  let st :=
    setFormData {| f_name := upperValue;
                   f_parent_id := f_parent_id (formData st) |} st in
  if negb (validateName upperValue)
  then setError (Some "Only English letters (A-Z) and spaces are allowed") st
  else setError None st.

Definition handleCloseDialog : State -> State :=
  close {| f_name := ""; f_parent_id := "" |}.

Definition handleEdit (row : Item) : State -> State :=
  edit row {| f_name := name row; f_parent_id := parent_id row |}.

Definition handleSubmit (L : Labels) (gw : Backend) (user : option User)
  (st : State) : Outcome State :=
  match user with
  | None =>
      mkOutcome
        (setError (Some "You must be logged in to perform this action") st)
        [] false
  | Some u =>
      if negb (validateName (f_name (formData st))) then
        mkOutcome (setError (Some (invalidFormat L)) st) [] false
      else if JS.isEmpty (f_parent_id (formData st)) then
        mkOutcome (setError (Some (selectParent L)) st) [] false
      else
        let trimmedName := JS.trim (f_name (formData st)) in
        let parent := VStr (f_parent_id (formData st)) in
        let query :=
          Select (table L)
                 [("name", VStr trimmedName); (parentColumn L, parent)]
                 (truthyId id (editing st)) in
        match maybeSingle (gw query) with
        | Some _ =>
            mkOutcome (setError (Some (alreadyExists L)) st) [query] false
        | None =>
            let write :=
              match editing st with
              | Some row =>
                  Update (table L)
                         [("name", VStr trimmedName);
                          (parentColumn L, parent);
                          ("updated_by", VStr (user_id u))]
                         (id row)
              | None =>
                  Insert (table L)
                         [("name", VStr trimmedName);
                          (parentColumn L, parent);
                          ("created_by", VStr (user_id u))]
              end in
            match writeError (gw write) with
            | Some _ =>
                mkOutcome (setError (Some (saveFailed L)) st)
                          [query; write] false
            | None =>
                let done_ :=
                  match editing st with
                  | Some _ => updated L
                  | None => added L
                  end in
                mkOutcome (handleCloseDialog (setSuccess done_ st))
                          [query; write] true
            end
        end
  end.

End ScopedForm.

Module CityList.
Definition labels : ScopedForm.Labels :=
  {| ScopedForm.table := "city";
     ScopedForm.parentColumn := "country_id";
     ScopedForm.invalidFormat := "Invalid city name format";
     ScopedForm.selectParent := "Please select a country";
     ScopedForm.alreadyExists :=
       "A city with this name already exists in the selected country";
     ScopedForm.saveFailed := "Failed to save city. Please try again.";
     ScopedForm.updated := "City updated successfully";
     ScopedForm.added := "City added successfully" |}.
Definition handleNameChange := ScopedForm.handleNameChange.
Definition handleSubmit := ScopedForm.handleSubmit labels.
End CityList.

Module DistrictList.
Definition labels : ScopedForm.Labels :=
  {| ScopedForm.table := "district";
     ScopedForm.parentColumn := "city_id";
     ScopedForm.invalidFormat := "Invalid district name format";
     ScopedForm.selectParent := "Please select a city";
     ScopedForm.alreadyExists :=
       "A district with this name already exists in the selected city";
     ScopedForm.saveFailed := "Failed to save district. Please try again.";
     ScopedForm.updated := "District updated successfully";
     ScopedForm.added := "District added successfully" |}.
Definition validateDistrictName := ScopedForm.validateName.
Definition handleNameChange := ScopedForm.handleNameChange.
Definition handleSubmit := ScopedForm.handleSubmit labels.
End DistrictList.

(* ===================================================================== *)
(** ** LineList *)
(* ===================================================================== *)

Module LineList.

Import Gateway Dialog.

Record Line := {
  id : string;
  name : string;
  company_id : string;
  district_id : string;
  line_type_id : string
}.

Record FormData := {
  f_name : string;
  f_company_id : string;
  f_district_id : string;
  f_line_type_id : string
}.

Definition State := Dialog.State FormData Line.

Definition validateLineName : string -> bool :=
  Regex.lettersDigitsSpacesHyphen.

Definition handleNameChange (value : string) (st : State) : State :=
  let upperValue := JS.toUpperCase value in
  let prev := formData st in
  let st :=
    setFormData {| f_name := upperValue;
                   f_company_id := f_company_id prev;
                   f_district_id := f_district_id prev;
                   f_line_type_id := f_line_type_id prev |} st in
  if negb (validateLineName upperValue)
  then setError
         (Some "Only English letters (A-Z), numbers (0-9), spaces, and hyphens are allowed")
         st
  else setError None st.

Definition handleCloseDialog : State -> State :=
  close {| f_name := ""; f_company_id := ""; f_district_id := "";
           f_line_type_id := "" |}.

Definition handleEdit (line : Line) : State -> State :=
  edit line {| f_name := name line;
               f_company_id := company_id line;
               f_district_id := district_id line;
               f_line_type_id := line_type_id line |}.

Definition handleSubmit (gw : Backend) (user : option User) (st : State)
  : Outcome State :=
  match user with
  | None =>
      mkOutcome
        (setError (Some "You must be logged in to perform this action") st)
        [] false
  | Some u =>
      let f := formData st in
      if negb (validateLineName (f_name f)) then
        mkOutcome (setError (Some "Invalid line name format") st) [] false
      else if JS.isEmpty (f_company_id f) || JS.isEmpty (f_district_id f)
              || JS.isEmpty (f_line_type_id f) then
        mkOutcome (setError (Some "All fields are required") st) [] false
      else
        let trimmedName := JS.trim (f_name f) in
        let query :=
          Select "line"
                 [("name", VStr trimmedName);
                  ("company_id", VStr (f_company_id f));
                  ("district_id", VStr (f_district_id f))]
                 (truthyId id (editing st)) in
        match maybeSingle (gw query) with
        | Some _ =>
            mkOutcome
              (setError
                 (Some "A line with this name already exists in the selected company and district")
                 st)
              [query] false
        | None =>
            let write :=
              match editing st with
              | Some line =>
                  Update "line"
                         [("name", VStr trimmedName);
                          ("company_id", VStr (f_company_id f));
                          ("district_id", VStr (f_district_id f));
                          ("line_type_id", VStr (f_line_type_id f));
                          ("updated_by", VStr (user_id u))]
                         (id line)
              | None =>
                  Insert "line"
                         [("name", VStr trimmedName);
                          ("company_id", VStr (f_company_id f));
                          ("district_id", VStr (f_district_id f));
                          ("line_type_id", VStr (f_line_type_id f));
                          ("created_by", VStr (user_id u))]
              end in
            match writeError (gw write) with
            | Some _ =>
                mkOutcome
                  (setError (Some "Failed to save line. Please try again.")
                            st)
                  [query; write] false
            | None =>
                let done_ :=
                  match editing st with
                  | Some _ => "Line updated successfully"
                  | None => "Line added successfully"
                  end in
                mkOutcome (handleCloseDialog (setSuccess done_ st))
                          [query; write] true
            end
        end
  end.

End LineList.

(* ===================================================================== *)
(** ** KpiList *)
(* ===================================================================== *)

Module KpiList.

Import Gateway Dialog.

Record KPI := { id : string; name : string; unit : string }.
Record FormData := { f_name : string; f_unit : string }.
Definition State := Dialog.State FormData KPI.

(** The name field's [onChange]: the typed value is stored as it is. *)
Definition handleNameChange (value : string) (st : State) : State :=
  setFormData {| f_name := value; f_unit := f_unit (formData st) |} st.

Definition handleUnitChange (value : string) (st : State) : State :=
  setFormData {| f_name := f_name (formData st); f_unit := value |} st.

Definition handleCloseDialog : State -> State :=
  close {| f_name := ""; f_unit := "" |}.

Definition handleEdit (kpi : KPI) : State -> State :=
  edit kpi {| f_name := name kpi; f_unit := unit kpi |}.

Definition handleSubmit (gw : Backend) (user : option User) (st : State)
  : Outcome State :=
  match user with
  | None =>
      mkOutcome
        (setError (Some "You must be logged in to perform this action") st)
        [] false
  | Some u =>
      let trimmedName := JS.trim (f_name (formData st)) in
      let trimmedUnit := JS.trim (f_unit (formData st)) in
      if JS.isEmpty trimmedName || JS.isEmpty trimmedUnit then
        mkOutcome (setError (Some "Name and unit are required") st) [] false
      else
        let query :=
          Select "kpi" [("name", VStr trimmedName)]
                 (truthyId id (editing st)) in
        match maybeSingle (gw query) with
        | Some _ =>
            mkOutcome
              (setError (Some "A KPI with this name already exists") st)
              [query] false
        | None =>
            let write :=
              match editing st with
              | Some kpi =>
                  Update "kpi"
                         [("name", VStr trimmedName);
                          ("unit", VStr trimmedUnit);
                          ("updated_by", VStr (user_id u))]
                         (id kpi)
              | None =>
                  Insert "kpi"
                         [("name", VStr trimmedName);
                          ("unit", VStr trimmedUnit);
                          ("created_by", VStr (user_id u))]
              end in
            match writeError (gw write) with
            | Some _ =>
                mkOutcome
                  (setError (Some "Failed to save KPI. Please try again.")
                            st)
                  [query; write] false
            | None =>
                let done_ :=
                  match editing st with
                  | Some _ => "KPI updated successfully"
                  | None => "KPI added successfully"
                  end in
                mkOutcome (handleCloseDialog (setSuccess done_ st))
                          [query; write] true
            end
        end
  end.

End KpiList.

(* ===================================================================== *)
(** ** MachineList *)
(* ===================================================================== *)

Module MachineList.

Import Gateway.

Record Machine := {
  id : string;
  name : string;
  order : Z;
  line_id : string
}.

Record FormData := {
  f_name : string;
  f_order : Z;
  f_line_id : string
}.

Record ValidationErrors := {
  v_name : option string;
  v_order : option string;
  v_line : option string
}.

Record State := {
  error : option string;
  validationErrors : ValidationErrors;
  success : option string;
  openDialog : bool;
  editingMachine : option Machine;
  formData : FormData;
  existingOrders : list Z
}.

Definition noErrors : ValidationErrors :=
  {| v_name := None; v_order := None; v_line := None |}.

Definition emptyForm : FormData :=
  {| f_name := ""; f_order := 1000; f_line_id := "" |}.

Definition setError (e : option string) (st : State) : State :=
  {| error := e;
     validationErrors := validationErrors st;
     success := success st;
     openDialog := openDialog st;
     editingMachine := editingMachine st;
     formData := formData st;
     existingOrders := existingOrders st |}.

Definition setSuccess (m : string) (st : State) : State :=
  {| error := error st;
     validationErrors := validationErrors st;
     success := Some m;
     openDialog := openDialog st;
     editingMachine := editingMachine st;
     formData := formData st;
     existingOrders := existingOrders st |}.

Definition setValidationErrors (v : ValidationErrors) (st : State)
  : State :=
  {| error := error st;
     validationErrors := v;
     success := success st;
     openDialog := openDialog st;
     editingMachine := editingMachine st;
     formData := formData st;
     existingOrders := existingOrders st |}.

Definition setFormData (f : FormData) (st : State) : State :=
  {| error := error st;
     validationErrors := validationErrors st;
     success := success st;
     openDialog := openDialog st;
     editingMachine := editingMachine st;
     formData := f;
     existingOrders := existingOrders st |}.

Definition setExistingOrders (l : list Z) (st : State) : State :=
  {| error := error st;
     validationErrors := validationErrors st;
     success := success st;
     openDialog := openDialog st;
     editingMachine := editingMachine st;
     formData := formData st;
     existingOrders := l |}.

Definition withName (e : option string) (v : ValidationErrors)
  : ValidationErrors :=
  {| v_name := e; v_order := v_order v; v_line := v_line v |}.
Definition withOrder (e : option string) (v : ValidationErrors)
  : ValidationErrors :=
  {| v_name := v_name v; v_order := e; v_line := v_line v |}.
Definition withLine (e : option string) (v : ValidationErrors)
  : ValidationErrors :=
  {| v_name := v_name v; v_order := v_order v; v_line := e |}.

(** [Array.prototype.includes] on numbers. *)
Definition includes (l : list Z) (n : Z) : bool :=
  existsb (Z.eqb n) l.

(** [numValue !== editingMachine?.order] *)
Definition notOwnOrder (n : Z) (e : option Machine) : bool :=
  match e with
  | Some m => negb (n =? order m)
  | None => true
  end.

Definition outOfRangeMsg : string :=
  "Order must be a 4-digit number (1000-9999)".
Definition orderUsedMsg : string :=
  "This order number is already used in the selected production line".
Definition nameCharsMsg : string :=
  "Only English letters (A-Z), numbers (0-9), spaces, and hyphens are allowed".

(** The loop [while (orders.includes(nextOrder)) nextOrder++]; it leaves
    within [length orders + 1] rounds, which is the fuel
    [fetchExistingOrders] gives it. *)
Fixpoint nextFree (fuel : nat) (orders : list Z) (nextOrder : Z) : Z :=
  match fuel with
  | O => nextOrder
  | S k =>
      if includes orders nextOrder
      then nextFree k orders (nextOrder + 1)
      else nextOrder
  end.

(** [data.map(m => m.order)]; the [order] column holds numbers. *)
Definition ordersOf (rows : list Row) : list Z :=
  flat_map (fun r => match get "order" r with
                     | VNum n => [n]
                     | _ => []
                     end) rows.

(** [fetchExistingOrders(lineId)]; [closureEditing] is the
    [editingMachine] of the render whose handler started the fetch. *)
Definition fetchExistingOrders (gw : Backend)
  (closureEditing : option Machine) (lineId : string) (st : State)
  : State :=
  if JS.isEmpty lineId then setExistingOrders [] st
  else
    match gw (SelectOrders lineId) with
    | Matching rows =>
        let orders := ordersOf rows in
        let st := setExistingOrders orders st in
        let nextOrder := nextFree (S (length orders)) orders 1000 in
        match closureEditing with
        | None =>
            setFormData {| f_name := f_name (formData st);
                           f_order := nextOrder;
                           f_line_id := f_line_id (formData st) |} st
        | Some _ => st
        end
    | _ => st
    end.

Definition handleLineChange (gw : Backend) (lineId : string) (st : State)
  : State :=
  let st1 :=
    setFormData {| f_name := f_name (formData st);
                   f_order := f_order (formData st);
                   f_line_id := lineId |} st in
  let st2 := setValidationErrors (withLine None (validationErrors st1)) st1 in
  fetchExistingOrders gw (editingMachine st) lineId st2.

Definition validateMachineName : string -> bool :=
  Regex.lettersDigitsSpacesHyphen.

Definition handleNameChange (value : string) (st : State) : State :=
  let upperValue := JS.toUpperCase value in
  let st :=
    setFormData {| f_name := upperValue;
                   f_order := f_order (formData st);
                   f_line_id := f_line_id (formData st) |} st in
  if negb (validateMachineName upperValue)
  then setValidationErrors
         (withName (Some nameCharsMsg) (validationErrors st)) st
  else setValidationErrors (withName None (validationErrors st)) st.

Definition handleOrderChange (value : string) (st : State) : State :=
  let numValue := JS.orDefault (JS.parseInt value) 1000 in
  let st' :=
    setFormData {| f_name := f_name (formData st);
                   f_order := numValue;
                   f_line_id := f_line_id (formData st) |} st in
  if (numValue <? 1000) || (numValue >? 9999) then
    setValidationErrors
      (withOrder (Some outOfRangeMsg) (validationErrors st')) st'
  else if includes (existingOrders st) numValue
          && notOwnOrder numValue (editingMachine st) then
    setValidationErrors
      (withOrder (Some orderUsedMsg) (validationErrors st')) st'
  else
    setValidationErrors (withOrder None (validationErrors st')) st'.

(** [validateForm]: the errors it collects, and whether there is none
    ([Object.keys(newErrors).length === 0]). *)
Definition formErrors (st : State) : ValidationErrors :=
  let f := formData st in
  {| v_line :=
       if JS.isEmpty (f_line_id f)
       then Some "Please select a production line" else None;
     v_name :=
       if JS.isEmpty (JS.trim (f_name f))
       then Some "Machine name is required"
       else if negb (validateMachineName (f_name f))
       then Some nameCharsMsg
       else None;
     v_order :=
       if (f_order f <? 1000) || (f_order f >? 9999)
       then Some outOfRangeMsg
       else if includes (existingOrders st) (f_order f)
               && notOwnOrder (f_order f) (editingMachine st)
       then Some orderUsedMsg
       else None |}.

Definition isNone {A : Type} (o : option A) : bool :=
  match o with None => true | Some _ => false end.

Definition validateForm (st : State) : State * bool :=
  let newErrors := formErrors st in
  (setValidationErrors newErrors st,
   isNone (v_name newErrors) && isNone (v_order newErrors)
   && isNone (v_line newErrors)).

Definition handleCloseDialog (st : State) : State :=
  {| error := None;
     validationErrors := noErrors;
     success := success st;
     openDialog := false;
     editingMachine := None;
     formData := emptyForm;
     existingOrders := [] |}.

Definition handleEdit (gw : Backend) (machine : Machine) (st : State)
  : State :=
  let st' :=
    {| error := None;
       validationErrors := noErrors;
       success := success st;
       openDialog := true;
       editingMachine := Some machine;
       formData := {| f_name := name machine;
                      f_order := order machine;
                      f_line_id := line_id machine |};
       existingOrders := existingOrders st |} in
  fetchExistingOrders gw (editingMachine st) (line_id machine) st'.

(** The test both rejection branches apply to the backend's error. *)
Definition isOrderConflict (e : PgError) : bool :=
  String.eqb (code e) "23505"
  && JS.includes (message e) "machine_line_order_unique".

Definition handleSubmit (gw : Backend) (user : option User) (st : State)
  : Outcome State :=
  match user with
  | None =>
      mkOutcome
        (setError (Some "You must be logged in to perform this action") st)
        [] false
  | Some u =>
      let '(st1, ok) := validateForm st in
      if negb ok then mkOutcome st1 [] false
      else
        let f := formData st in
        let trimmedName := JS.trim (f_name f) in
        let write :=
          match editingMachine st with
          | Some m =>
              Update "machine"
                     [("name", VStr trimmedName);
                      ("order", VNum (f_order f));
                      ("line_id", VStr (f_line_id f));
                      ("updated_by", VStr (user_id u))]
                     (id m)
          | None =>
              Insert "machine"
                     [("name", VStr trimmedName);
                      ("order", VNum (f_order f));
                      ("line_id", VStr (f_line_id f));
                      ("created_by", VStr (user_id u))]
          end in
        match writeError (gw write) with
        | Some e =>
            if isOrderConflict e then
              mkOutcome
                (setValidationErrors
                   (withOrder (Some orderUsedMsg) (validationErrors st1))
                   st1)
                [write] false
            else
              mkOutcome
                (setError
                   (Some "Failed to save machine. Please try again.") st1)
                [write] false
        | None =>
            let done_ :=
              match editingMachine st with
              | Some _ => "Machine updated successfully"
              | None => "Machine added successfully"
              end in
            mkOutcome (handleCloseDialog (setSuccess done_ st1))
                      [write] true
        end
  end.

End MachineList.

(* ===================================================================== *)
(** ** The debounced search of every list page *)
(* ===================================================================== *)

(** [debouncedSearch], the effect that calls it, and the handlers of the
    search box, the column headers and the pagination are the same code in
    the eight pages up to the table name, the select clause, the message
    and the first sort column. *)
Module Search.

Import Gateway.

Inductive Entity :=
| Company | Country | City | District | LineType | Line | Machine | Kpi.

Definition tableOf (e : Entity) : string :=
  match e with
  | Company => "company"
  | Country => "country"
  | City => "city"
  | District => "district"
  | LineType => "line_type"
  | Line => "line"
  | Machine => "machine"
  | Kpi => "kpi"
  end.

Definition searchFailed (e : Entity) : string :=
  match e with
  | Company => "Failed to search companies"
  | Country => "Failed to search countries"
  | City => "Failed to search cities"
  | District => "Failed to search districts"
  | LineType => "Failed to search line types"
  | Line => "Failed to search lines"
  | Machine => "Failed to search machines"
  | Kpi => "Failed to search KPIs"
  end.

Definition firstOrderBy (e : Entity) : string :=
  match e with
  | Machine => "order"
  | _ => "name"
  end.

Inductive Order := asc | desc.

Definition orderEqb (a b : Order) : bool :=
  match a, b with
  | asc, asc | desc, desc => true
  | _, _ => false
  end.

(** The React state the table is drawn from. *)
Record View := {
  rows : list Row;
  totalCount : Z;
  loading : bool;
  error : option string;
  searchTerm : string;
  page : Z;
  rowsPerPage : Z;
  orderBy : string;
  order : Order
}.

(** What [useCallback] closes over: its dependency list. *)
Record Closure := {
  c_orderBy : string;
  c_order : Order;
  c_page : Z;
  c_rowsPerPage : Z
}.

Definition closureOf (v : View) : Closure :=
  {| c_orderBy := orderBy v; c_order := order v;
     c_page := page v; c_rowsPerPage := rowsPerPage v |}.

(** A call of the debounced function whose 300 ms have not elapsed. *)
Record Pending := {
  deadline : N;
  captured : Closure;
  term : string
}.

(** The page and its surroundings: the clock in milliseconds, the timer
    of the debounced function, the queries awaiting their answer, and
    the log of the queries sent so far, newest first.  A query's number
    is its position in the order of sending, from 0. *)
Record State := {
  view : View;
  now : N;
  timer : option Pending;
  inflight : list (nat * ListQuery);
  issued : list ListQuery
}.

Definition wait : N := 300.

(** The query built by the body of the debounced function. *)
Definition searchQuery (e : Entity) (c : Closure) (term : string)
  : ListQuery :=
  {| l_table := tableOf e;
     l_ilike :=
       if JS.isEmpty term then None
       else Some ("name", String.append "%" (String.append term "%"));
     l_orderBy := c_orderBy c;
     l_ascending := orderEqb (c_order c) asc;
     l_from := c_page c * c_rowsPerPage c;
     l_to := (c_page c + 1) * c_rowsPerPage c - 1;
     l_countExact := true |}.

Definition currentQuery (e : Entity) (v : View) : ListQuery :=
  searchQuery e (closureOf v) (searchTerm v).

(** The dependency list of the effect,
    [[searchTerm, orderBy, order, page, rowsPerPage]], compared as React
    does. *)
Definition sameDeps (a b : View) : bool :=
  String.eqb (searchTerm a) (searchTerm b)
  && String.eqb (orderBy a) (orderBy b)
  && orderEqb (order a) (order b)
  && (page a =? page b)
  && (rowsPerPage a =? rowsPerPage b).

(** [debouncedSearch(term)]: (re)starts the 300 ms timer with the
    latest arguments. *)
Definition schedule (v : View) (st : State) : State :=
  {| view := v;
     now := now st;
     timer := Some {| deadline := (now st + wait)%N;
                      captured := closureOf v;
                      term := searchTerm v |};
     inflight := inflight st;
     issued := issued st |}.

(** A render with the new state [v].  When a dependency changed, the
    effect's cleanup cancels the pending call and the effect calls the
    debounced function again; otherwise the timer is left alone. *)
Definition render (v : View) (st : State) : State :=
  if sameDeps (view st) v then
    {| view := v; now := now st; timer := timer st;
       inflight := inflight st; issued := issued st |}
  else schedule v st.

Definition withSearch (term : string) (v : View) : View :=
  {| rows := rows v; totalCount := totalCount v; loading := loading v;
     error := error v; searchTerm := term; page := 0;
     rowsPerPage := rowsPerPage v; orderBy := orderBy v;
     order := order v |}.

Definition withSort (property : string) (v : View) : View :=
  let isAsc := String.eqb (orderBy v) property && orderEqb (order v) asc in
  {| rows := rows v; totalCount := totalCount v; loading := loading v;
     error := error v; searchTerm := searchTerm v; page := 0;
     rowsPerPage := rowsPerPage v; orderBy := property;
     order := if isAsc then desc else asc |}.

Definition withPage (newPage : Z) (v : View) : View :=
  {| rows := rows v; totalCount := totalCount v; loading := loading v;
     error := error v; searchTerm := searchTerm v; page := newPage;
     rowsPerPage := rowsPerPage v; orderBy := orderBy v;
     order := order v |}.

Definition withRowsPerPage (n : Z) (v : View) : View :=
  {| rows := rows v; totalCount := totalCount v; loading := loading v;
     error := error v; searchTerm := searchTerm v; page := 0;
     rowsPerPage := n; orderBy := orderBy v; order := order v |}.

Definition withLoading (b : bool) (v : View) : View :=
  {| rows := rows v; totalCount := totalCount v; loading := b;
     error := error v; searchTerm := searchTerm v; page := page v;
     rowsPerPage := rowsPerPage v; orderBy := orderBy v;
     order := order v |}.

(** [setCities(data || []); setTotalCount(count || 0)] and the
    [finally] block. *)
Definition withResult (data : option (list Row)) (count : option Z)
  (v : View) : View :=
  {| rows := match data with Some d => d | None => [] end;
     totalCount := JS.orDefault count 0;
     loading := false;
     error := error v; searchTerm := searchTerm v; page := page v;
     rowsPerPage := rowsPerPage v; orderBy := orderBy v;
     order := order v |}.

(** The [catch] and [finally] blocks. *)
Definition withFailure (e : Entity) (v : View) : View :=
  {| rows := rows v; totalCount := totalCount v; loading := false;
     error := Some (searchFailed e);
     searchTerm := searchTerm v; page := page v;
     rowsPerPage := rowsPerPage v; orderBy := orderBy v;
     order := order v |}.

Inductive Event :=
| SearchChange (value : string)    (* handleSearchChange *)
| Sort (property : string)         (* handleSort *)
| ChangePage (newPage : Z)         (* handleChangePage *)
| ChangeRowsPerPage (n : Z)
    (* handleChangeRowsPerPage; the select offers 15, 50, 100, 150, 200,
       so [parseInt(value, 10)] is that number *)
| Refresh
    (* the submit handler's [debouncedSearch(searchTerm)] after a save
       during which the search box, the sort and the paging were left
       alone, so that the term and the closure of the submitting render
       are those on screen; a save that outlives a change of them calls
       the debounced function of the earlier render and is not among the
       events *)
| Tick (dt : N)                    (* [dt] milliseconds pass *)
| Response (id : nat) (r : ListResult).
    (* the awaited query number [id] resolves *)

Fixpoint lookup (id : nat) (l : list (nat * ListQuery))
  : option ListQuery :=
  match l with
  | [] => None
  | (i, q) :: l' => if Nat.eqb i id then Some q else lookup id l'
  end.

Fixpoint remove (id : nat) (l : list (nat * ListQuery))
  : list (nat * ListQuery) :=
  match l with
  | [] => []
  | (i, q) :: l' =>
      if Nat.eqb i id then remove id l' else (i, q) :: remove id l'
  end.

(** The timer fires: the body of the debounced function runs up to its
    [await]. *)
Definition fire (e : Entity) (p : Pending) (st : State) : State :=
  let q := searchQuery e (captured p) (term p) in
  {| view := withLoading true (view st);
     now := now st;
     timer := None;
     inflight := (length (issued st), q) :: inflight st;
     issued := q :: issued st |}.

Definition advance (e : Entity) (dt : N) (st : State) : State :=
  let st' := {| view := view st; now := (now st + dt)%N;
                timer := timer st; inflight := inflight st;
                issued := issued st |} in
  match timer st with
  | Some p => if (deadline p <=? now st')%N then fire e p st' else st'
  | None => st'
  end.

(** The body of the debounced function resumes after its [await]. *)
Definition resume (e : Entity) (id : nat) (r : ListResult) (st : State)
  : State :=
  match lookup id (inflight st) with
  | None => st
  | Some _ =>
      {| view := match r with
                 | ListOk data count => withResult data count (view st)
                 | ListErr _ => withFailure e (view st)
                 end;
         now := now st;
         timer := timer st;
         inflight := remove id (inflight st);
         issued := issued st |}
  end.

(** What each handler and callback does when it is called.  The search
    box, the column headers and the pagination exist, and their handlers
    can be called, only while [spinner] below is false. *)
Definition step (e : Entity) (st : State) (ev : Event) : State :=
  match ev with
  | SearchChange value => render (withSearch value (view st)) st
  | Sort property => render (withSort property (view st)) st
  | ChangePage newPage => render (withPage newPage (view st)) st
  | ChangeRowsPerPage n => render (withRowsPerPage n (view st)) st
  | Refresh => schedule (view st) st
  | Tick dt => advance e dt st
  | Response id r => resume e id r st
  end.

Definition run (e : Entity) (st : State) (evs : list Event) : State :=
  fold_left (step e) evs st.

(** The state after mounting: the first effect has called the debounced
    function with the empty term. *)
Definition initialView (e : Entity) : View :=
  {| rows := []; totalCount := 0; loading := true; error := None;
     searchTerm := ""; page := 0; rowsPerPage := 15;
     orderBy := firstOrderBy e; order := asc |}.

Definition init (e : Entity) : State :=
  {| view := initialView e;
     now := 0%N;
     timer := Some {| deadline := wait;
                      captured := closureOf (initialView e);
                      term := "" |};
     inflight := [];
     issued := [] |}.

(** The early return of every page,
    [if (loading && page === 0 && !searchTerm) return <Loader2 ... />]:
    while it holds the page draws the spinner alone, without the search
    box and without the table, its column headers and its pagination. *)
Definition spinner (v : View) : bool :=
  loading v && (page v =? 0) && JS.isEmpty (searchTerm v).


(** The name a row shows in the table. *)
Definition nameOf (r : Row) : string :=
  match get "name" r with
  | VStr s => s
  | _ => ""
  end.

(** [term] occurs in [name], letter case aside. *)
Definition containsCI (name term : string) : bool :=
  JS.includes (JS.toLowerCase name) (JS.toLowerCase term).

End Search.

(* ===================================================================== *)
(** ** Vocabulary of the statements *)
(* ===================================================================== *)

(** The order error [validateForm] and [handleOrderChange] both compute
    for a number. *)
Definition orderError (st : MachineList.State) (n : Z) : option string :=
  if (n <? 1000) || (n >? 9999) then Some MachineList.outOfRangeMsg
  else if MachineList.includes (MachineList.existingOrders st) n
          && MachineList.notOwnOrder n (MachineList.editingMachine st)
  then Some MachineList.orderUsedMsg
  else None.

(** An Add Machine dialog that was just opened. *)
Definition blankMachineForm : MachineList.State :=
  {| MachineList.error := None;
     MachineList.validationErrors := MachineList.noErrors;
     MachineList.success := None;
     MachineList.openDialog := true;
     MachineList.editingMachine := None;
     MachineList.formData := MachineList.emptyForm;
     MachineList.existingOrders := [] |}.

(** A backend over an empty table that accepts every write. *)
Definition emptyBackend : Gateway.Backend :=
  Gateway.serve [] (fun _ => None).

(** The name an insert or update stores. *)
Definition storedName (r : Gateway.Request) : option string :=
  match r with
  | Gateway.Insert _ f | Gateway.Update _ f _ =>
      match Gateway.get "name" f with
      | Gateway.VStr s => Some s
      | _ => None
      end
  | _ => None
  end.

(** Every name stored by the requests [l] satisfies [ok]. *)
Definition storedNamesOk (ok : string -> bool) (l : list Gateway.Request)
  : bool :=
  forallb (fun r => match storedName r with
                    | Some n => ok n
                    | None => true
                    end) l.

(** Uppercase letters and spaces only. *)
Definition upperAndSpaces (s : string) : bool :=
  JS.all (fun c => JS.isUpperAZ c || JS.isSpace c) s.

(** Uppercase letters, digits, spaces and hyphens only. *)
Definition upperDigitsSpacesHyphens (s : string) : bool :=
  JS.all (fun c => JS.isUpperAZ c || JS.isDigit c || JS.isSpace c
                   || JS.isHyphen c) s.

(** The only white space in [s] is the space character. *)
Definition plainSpaces (s : string) : bool :=
  JS.all (fun c => negb (JS.isWhiteSpace c) || JS.isSpace c) s.

(** Whether a request writes to the backend. *)
Definition isWrite (r : Gateway.Request) : bool :=
  match r with
  | Gateway.Insert _ _ | Gateway.Update _ _ _ => true
  | _ => false
  end.

(** An Add dialog of a name-only page holding [name]. *)
Definition nameDialog (name : string) : NameForm.State :=
  Dialog.mk None None true None {| NameForm.f_name := name |}.

(** An Add dialog of a page with one parent. *)
Definition scopedDialog (name parent : string) : ScopedForm.State :=
  Dialog.mk None None true None
            {| ScopedForm.f_name := name; ScopedForm.f_parent_id := parent |}.

(** An Add KPI dialog. *)
Definition kpiDialog (name unit : string) : KpiList.State :=
  Dialog.mk None None true None
            {| KpiList.f_name := name; KpiList.f_unit := unit |}.



(** The id a pre-check leaves out: that of the record being edited, when
    there is one and its id is not the empty string. *)
Definition excludedId (st : ScopedForm.State) : option string :=
  match Dialog.editing st with
  | Some row =>
      if JS.isEmpty (ScopedForm.id row) then None
      else Some (ScopedForm.id row)
  | None => None
  end.

(** The pre-check of the city page for the form of [st]: the rows with the
    trimmed name and the country of the form, the edited record apart. *)
Definition cityPreCheck (st : ScopedForm.State) : Gateway.Request :=
  Gateway.Select "city"
    [("name", Gateway.VStr (JS.trim (ScopedForm.f_name (Dialog.formData st))));
     ("country_id",
      Gateway.VStr (ScopedForm.f_parent_id (Dialog.formData st)))]
    (excludedId st).

(** The insert or update the city page sends for the form of [st]. *)
Definition cityWrite (u : User) (st : ScopedForm.State) : Gateway.Request :=
  let name := JS.trim (ScopedForm.f_name (Dialog.formData st)) in
  let cid := ScopedForm.f_parent_id (Dialog.formData st) in
  match Dialog.editing st with
  | Some row =>
      Gateway.Update "city"
        [("name", Gateway.VStr name); ("country_id", Gateway.VStr cid);
         ("updated_by", Gateway.VStr (user_id u))]
        (ScopedForm.id row)
  | None =>
      Gateway.Insert "city"
        [("name", Gateway.VStr name); ("country_id", Gateway.VStr cid);
         ("created_by", Gateway.VStr (user_id u))]
  end.

(** A city table holding SPRINGFIELD under the country [us]. *)
Definition springfieldTable : list Gateway.Row :=
  [[("id", Gateway.VStr "1"); ("name", Gateway.VStr "SPRINGFIELD");
    ("country_id", Gateway.VStr "us")]].

(** The cities of the country [us]: SPRINGFIELD and SHELBYVILLE. *)
Definition usCities : list Gateway.Row :=
  [[("id", Gateway.VStr "1"); ("name", Gateway.VStr "SPRINGFIELD");
    ("country_id", Gateway.VStr "us")];
   [("id", Gateway.VStr "2"); ("name", Gateway.VStr "SHELBYVILLE");
    ("country_id", Gateway.VStr "us")]].




(** A table of 47 rows numbered 0 to 46. *)
Definition table47 : list Gateway.Row :=
  map (fun i => [("id", Gateway.VNum (Z.of_nat i));
                 ("name", Gateway.VStr "ROW")]) (seq 0 47).

(** Page 3 of 15 rows, ordered by id. *)
Definition page3of15 : Search.Closure :=
  {| Search.c_orderBy := "id"; Search.c_order := Search.asc;
     Search.c_page := 3; Search.c_rowsPerPage := 15 |}.

(** No character of [s] is special in a LIKE pattern. *)
Definition noPatternChars (s : string) : bool :=
  JS.all (fun c => negb (Gateway.isMeta c)) s.

(** Every row of [l] has a name containing [term], letter case aside. *)
Definition allContain (term : string) (l : list Gateway.Row) : bool :=
  forallb (fun r => Search.containsCI (Search.nameOf r) term) l.

(** The first-page closure a search change leaves behind: the sort and the
    page size of [v], page 0. *)
Definition firstPage (v : Search.View) : Search.Closure :=
  {| Search.c_orderBy := Search.orderBy v;
     Search.c_order := Search.order v;
     Search.c_page := 0;
     Search.c_rowsPerPage := Search.rowsPerPage v |}.


(** A company table with two names. *)
Definition twoCompanies : list Gateway.Row :=
  [[("id", Gateway.VStr "1"); ("name", Gateway.VStr "ALPHA")];
   [("id", Gateway.VStr "2"); ("name", Gateway.VStr "ALBA")]].

(** The query the freshly mounted company page sends for [term]. *)
Definition companyQuery (term : string) : Gateway.ListQuery :=
  Search.searchQuery Search.Company
    (Search.closureOf (Search.initialView Search.Company)) term.

(** The page of [e] over [table] once the query sent on mounting has been
    answered: the spinner is gone and the table shows the first page. *)
Definition mounted (e : Search.Entity) (table : list Gateway.Row)
  : Search.State :=
  Search.run e (Search.init e)
    [Search.Tick 300;
     Search.Response 0
       (Gateway.runList table (Search.currentQuery e (Search.initialView e)))].

(** A call is pending for the state on screen, due no earlier than [lo]
    and within the debounce wait. *)
Definition armed (st : Search.State) (lo : N) : Prop :=
  exists p,
    Search.timer st = Some p
    /\ Search.captured p = Search.closureOf (Search.view st)
    /\ Search.term p = Search.searchTerm (Search.view st)
    /\ (lo <= Search.deadline p)%N
    /\ (Search.deadline p <= Search.now st + Search.wait)%N.

(** The three keystrokes of the debounce scenario: the search box changes
    to [t1], then [d1] ms later to [t2], then [d2] ms later to [t3], and
    [d3] ms pass. *)
Definition threeKeystrokes (t1 t2 t3 : string) (d1 d2 d3 : N)
  : list Search.Event :=
  [Search.SearchChange t1; Search.Tick d1;
   Search.SearchChange t2; Search.Tick d2;
   Search.SearchChange t3; Search.Tick d3].

(** An Add Line dialog with every parent selected. *)
Definition lineDialog (name : string) : LineList.State :=
  Dialog.mk None None true None
            {| LineList.f_name := name;
               LineList.f_company_id := "company-1";
               LineList.f_district_id := "district-1";
               LineList.f_line_type_id := "type-1" |}.

(* ===================================================================== *)
(** ** The eight pages side by side *)
(* ===================================================================== *)

(** A list page together with the state of its dialog. *)
Inductive Page :=
| OnCompany (st : NameForm.State)
| OnCountry (st : NameForm.State)
| OnLineType (st : NameForm.State)
| OnCity (st : ScopedForm.State)
| OnDistrict (st : ScopedForm.State)
| OnLine (st : LineList.State)
| OnKpi (st : KpiList.State)
| OnMachine (st : MachineList.State).

Definition onPage {S : Type} (f : S -> Page) (o : Outcome S) : Outcome Page :=
  mkOutcome (f (state o)) (requests o) (refresh o).

(** The page's own [handleSubmit]. *)
Definition submit (gw : Gateway.Backend) (user : option User) (p : Page)
  : Outcome Page :=
  match p with
  | OnCompany st => onPage OnCompany (CompanyList.handleSubmit gw user st)
  | OnCountry st => onPage OnCountry (CountryList.handleSubmit gw user st)
  | OnLineType st => onPage OnLineType (LineTypeList.handleSubmit gw user st)
  | OnCity st => onPage OnCity (CityList.handleSubmit gw user st)
  | OnDistrict st => onPage OnDistrict (DistrictList.handleSubmit gw user st)
  | OnLine st => onPage OnLine (LineList.handleSubmit gw user st)
  | OnKpi st => onPage OnKpi (KpiList.handleSubmit gw user st)
  | OnMachine st => onPage OnMachine (MachineList.handleSubmit gw user st)
  end.

(** The table behind a page. *)
Definition pageTable (p : Page) : string :=
  match p with
  | OnCompany _ => "company"
  | OnCountry _ => "country"
  | OnLineType _ => "line_type"
  | OnCity _ => "city"
  | OnDistrict _ => "district"
  | OnLine _ => "line"
  | OnKpi _ => "kpi"
  | OnMachine _ => "machine"
  end.

(** The id of the row in the edit dialog, if the dialog edits one. *)
Definition editedId (p : Page) : option string :=
  match p with
  | OnCompany st | OnCountry st | OnLineType st =>
      option_map NameForm.id (Dialog.editing st)
  | OnCity st | OnDistrict st => option_map ScopedForm.id (Dialog.editing st)
  | OnLine st => option_map LineList.id (Dialog.editing st)
  | OnKpi st => option_map KpiList.id (Dialog.editing st)
  | OnMachine st => option_map MachineList.id (MachineList.editingMachine st)
  end.

(** The error banner and the success banner of a page. *)
Definition pageError (p : Page) : option string :=
  match p with
  | OnCompany st | OnCountry st | OnLineType st => Dialog.error st
  | OnCity st | OnDistrict st => Dialog.error st
  | OnLine st => Dialog.error st
  | OnKpi st => Dialog.error st
  | OnMachine st => MachineList.error st
  end.

Definition pageSuccess (p : Page) : option string :=
  match p with
  | OnCompany st | OnCountry st | OnLineType st => Dialog.success st
  | OnCity st | OnDistrict st => Dialog.success st
  | OnLine st => Dialog.success st
  | OnKpi st => Dialog.success st
  | OnMachine st => MachineList.success st
  end.

Definition quiet {F R : Type} (st : Dialog.State F R) : Dialog.State F R :=
  Dialog.mk None None (Dialog.openDialog st) (Dialog.editing st)
            (Dialog.formData st).

(** The page with its banners and field errors blanked: what is left is
    the dialog's being open, the edited row, the form as entered and, on
    the machine page, the fetched orders. *)
Definition input (p : Page) : Page :=
  match p with
  | OnCompany st => OnCompany (quiet st)
  | OnCountry st => OnCountry (quiet st)
  | OnLineType st => OnLineType (quiet st)
  | OnCity st => OnCity (quiet st)
  | OnDistrict st => OnDistrict (quiet st)
  | OnLine st => OnLine (quiet st)
  | OnKpi st => OnKpi (quiet st)
  | OnMachine st =>
      OnMachine
        {| MachineList.error := None;
           MachineList.validationErrors := MachineList.noErrors;
           MachineList.success := None;
           MachineList.openDialog := MachineList.openDialog st;
           MachineList.editingMachine := MachineList.editingMachine st;
           MachineList.formData := MachineList.formData st;
           MachineList.existingOrders := MachineList.existingOrders st |}
  end.

(** The page with its dialog closed and its form empty. *)
Definition blank (p : Page) : Page :=
  match p with
  | OnCompany _ =>
      OnCompany (Dialog.mk None None false None {| NameForm.f_name := "" |})
  | OnCountry _ =>
      OnCountry (Dialog.mk None None false None {| NameForm.f_name := "" |})
  | OnLineType _ =>
      OnLineType (Dialog.mk None None false None {| NameForm.f_name := "" |})
  | OnCity _ =>
      OnCity (Dialog.mk None None false None
                {| ScopedForm.f_name := ""; ScopedForm.f_parent_id := "" |})
  | OnDistrict _ =>
      OnDistrict (Dialog.mk None None false None
                    {| ScopedForm.f_name := ""; ScopedForm.f_parent_id := "" |})
  | OnLine _ =>
      OnLine (Dialog.mk None None false None
                {| LineList.f_name := ""; LineList.f_company_id := "";
                   LineList.f_district_id := "";
                   LineList.f_line_type_id := "" |})
  | OnKpi _ =>
      OnKpi (Dialog.mk None None false None
               {| KpiList.f_name := ""; KpiList.f_unit := "" |})
  | OnMachine _ =>
      OnMachine
        {| MachineList.error := None;
           MachineList.validationErrors := MachineList.noErrors;
           MachineList.success := None;
           MachineList.openDialog := false;
           MachineList.editingMachine := None;
           MachineList.formData := MachineList.emptyForm;
           MachineList.existingOrders := [] |}
  end.

Definition isSelect (r : Gateway.Request) : bool :=
  match r with
  | Gateway.Select _ _ _ => true
  | _ => false
  end.

(** The table a request goes to; the order lookup reads [machine]. *)
Definition requestTable (r : Gateway.Request) : string :=
  match r with
  | Gateway.Select t _ _ | Gateway.Update t _ _ | Gateway.Insert t _ => t
  | Gateway.SelectOrders _ => "machine"
  end.

(** The columns an insert or update writes. *)
Definition written (r : Gateway.Request) : Gateway.Fields :=
  match r with
  | Gateway.Insert _ f | Gateway.Update _ f _ => f
  | _ => []
  end.

(** The audit column of a write: [created_by] of an insert, [updated_by]
    of an update. *)
Definition actor (r : Gateway.Request) : Gateway.Value :=
  match r with
  | Gateway.Insert _ f => Gateway.get "created_by" f
  | Gateway.Update _ f _ => Gateway.get "updated_by" f
  | _ => Gateway.VNull
  end.

(** The write matches the dialog's mode: an update of the edited row, or
    an insert when no row is edited. *)
Definition matchesMode (edited : option string) (r : Gateway.Request) : bool :=
  match r, edited with
  | Gateway.Update _ _ i, Some j => String.eqb i j
  | Gateway.Insert _ _, None => true
  | _, _ => false
  end.

(** A string column of a write that holds a non-empty string. *)
Definition filled (col : string) (r : Gateway.Request) : bool :=
  match Gateway.get col (written r) with
  | Gateway.VStr s => negb (JS.isEmpty s)
  | _ => false
  end.

(** Whether a page shows the user any error: the banner or, on the
    machine page, an error under a field. *)
Definition feedback (p : Page) : bool :=
  match p with
  | OnMachine st =>
      negb (MachineList.isNone (MachineList.error st))
      || negb (MachineList.isNone
                 (MachineList.v_name (MachineList.validationErrors st)))
      || negb (MachineList.isNone
                 (MachineList.v_order (MachineList.validationErrors st)))
      || negb (MachineList.isNone
                 (MachineList.v_line (MachineList.validationErrors st)))
  | _ => negb (MachineList.isNone (pageError p))
  end.

(** A write of the signed-in user [u], or no write at all. *)
Definition signedBy (u : User) (r : Gateway.Request) : bool :=
  implb (isWrite r)
        (Gateway.valueEqb (actor r) (Gateway.VStr (user_id u))).

(** The string has no white space at either end. *)
Definition isTrimmed (s : string) : bool := String.eqb (JS.trim s) s.

(** No white space in front. *)
Definition startsClean (s : string) : Prop :=
  match s with
  | EmptyString => True
  | String c _ => JS.isWhiteSpace c = false
  end.

(** The columns a page insists on before it writes. *)
Definition requiredColumns (p : Page) : list string :=
  match p with
  | OnCompany _ | OnCountry _ | OnLineType _ => []
  | OnCity _ => ["country_id"]
  | OnDistrict _ => ["city_id"]
  | OnLine _ => ["company_id"; "district_id"; "line_type_id"]
  | OnKpi _ => ["name"; "unit"]
  | OnMachine _ => ["name"; "line_id"]
  end.

(** What a machine write carries: a name of the allowed characters and an
    order from 1000 to 9999 that is not among the fetched orders, the
    edited machine's own order aside. *)
Definition machineWriteOk (st : MachineList.State) (r : Gateway.Request)
  : bool :=
  match Gateway.get "name" (written r), Gateway.get "order" (written r) with
  | Gateway.VStr n, Gateway.VNum k =>
      Regex.lettersDigitsSpacesHyphen n
      && (1000 <=? k) && (k <=? 9999)
      && negb (MachineList.includes (MachineList.existingOrders st) k
               && MachineList.notOwnOrder k (MachineList.editingMachine st))
  | _, _ => false
  end.

(** Every code unit of [s] is below 128. *)
Definition isAscii (s : string) : bool :=
  JS.all (fun c => (JS.code c <? 128)%N) s.

Definition isLetter (c : ascii) : bool := JS.isUpperAZ c || JS.isLowerAZ c.

(** Letters of either case and white space only. *)
Definition lettersOrSpace (s : string) : bool :=
  JS.all (fun c => isLetter c || JS.isWhiteSpace c) s.

(** Letters of either case, digits, white space and hyphens only. *)
Definition lettersDigitsOrSpace (s : string) : bool :=
  JS.all (fun c => isLetter c || JS.isDigit c || JS.isWhiteSpace c
                   || JS.isHyphen c) s.

Definition noLowercase (s : string) : bool :=
  JS.all (fun c => negb (JS.isLowerAZ c)) s.

(** An Add Machine dialog on a page that has fetched nothing yet. *)
Definition machineDialog (name : string) (order : Z) (line : string)
  : MachineList.State :=
  MachineList.setFormData
    {| MachineList.f_name := name; MachineList.f_order := order;
       MachineList.f_line_id := line |} blankMachineForm.

(** The machines of line [line-1], with the orders 1000, 1001 and 1003. *)
Definition threeMachines : list Gateway.Row :=
  [[("id", Gateway.VStr "m1"); ("name", Gateway.VStr "PRESS");
    ("order", Gateway.VNum 1000); ("line_id", Gateway.VStr "line-1")];
   [("id", Gateway.VStr "m2"); ("name", Gateway.VStr "LATHE");
    ("order", Gateway.VNum 1001); ("line_id", Gateway.VStr "line-1")];
   [("id", Gateway.VStr "m3"); ("name", Gateway.VStr "OVEN");
    ("order", Gateway.VNum 1003); ("line_id", Gateway.VStr "line-1")]].

(** The second of them, as the table row handed to [handleEdit]. *)
Definition lathe : MachineList.Machine :=
  {| MachineList.id := "m2"; MachineList.name := "LATHE";
     MachineList.order := 1001; MachineList.line_id := "line-1" |}.

(** The handlers of the search box, the column headers and the
    pagination. *)
Definition isControl (ev : Search.Event) : bool :=
  match ev with
  | Search.SearchChange _ | Search.Sort _ | Search.ChangePage _
  | Search.ChangeRowsPerPage _ => true
  | _ => false
  end.

(** Keystrokes in the search box, each followed by the pause before the
    next event. *)
Definition typing (keys : list (string * N)) : list Search.Event :=
  flat_map (fun k => [Search.SearchChange (fst k); Search.Tick (snd k)]) keys.

(** Every keystroke changes the term, starting from [prev], and every
    pause is shorter than the debounce wait. *)
Fixpoint rapid (prev : string) (keys : list (string * N)) : Prop :=
  match keys with
  | [] => True
  | k :: keys' =>
      prev <> fst k /\ (snd k < Search.wait)%N /\ rapid (fst k) keys'
  end.

(** The term of the last keystroke, [prev] if there is none. *)
Fixpoint lastTerm (prev : string) (keys : list (string * N)) : string :=
  match keys with
  | [] => prev
  | k :: keys' => lastTerm (fst k) keys'
  end.

(** The rows of a successful list answer. *)
Definition dataOf (r : Gateway.ListResult) : list Gateway.Row :=
  match r with
  | Gateway.ListOk (Some d) _ => d
  | _ => []
  end.

(** The query for page [p] at [n] rows per page. *)
Definition pageQuery (e : Search.Entity) (orderBy : string)
  (order : Search.Order) (n : Z) (term : string) (p : nat)
  : Gateway.ListQuery :=
  Search.searchQuery e
    {| Search.c_orderBy := orderBy; Search.c_order := order;
       Search.c_page := Z.of_nat p; Search.c_rowsPerPage := n |} term.

(** The city SPRINGFIELD of [springfieldTable], as the row handed to
    [handleEdit]. *)
Definition springfield : ScopedForm.Item :=
  {| ScopedForm.id := "1"; ScopedForm.name := "SPRINGFIELD";
     ScopedForm.parent_id := "us" |}.

(* ===================================================================== *)
(** ** Dashboard: the factory filter *)
(* ===================================================================== *)

Module Dashboard.

(** A factory card.  [efficiency] and [uptime] are read only by the
    totals of the summary cards and are left out. *)
Record FactoryStatus := {
  id : string;
  name : string;
  status : string;
  oee_score : Z;
  energy_usage : Z
}.

(** The body of the filter callback. *)
Definition shown (searchTerm statusFilter : string) (factory : FactoryStatus)
  : bool :=
  let matchesSearch :=
    JS.includes (JS.toLowerCase (name factory)) (JS.toLowerCase searchTerm) in
  let matchesStatus :=
    String.eqb statusFilter "all" || String.eqb (status factory) statusFilter in
  matchesSearch && matchesStatus.

(** [filteredFactories], from the sorted list. *)
Definition filteredFactories (sortedFactories : list FactoryStatus)
  (searchTerm statusFilter : string) : list FactoryStatus :=
  filter (shown searchTerm statusFilter) sortedFactories.

End Dashboard.

(* ===================================================================== *)
(** ** Sidebar: expanding and collapsing menus *)
(* ===================================================================== *)

Module Sidebar.

#[warnings="-register-all"] Inductive MenuItem :=
| Item (title path : string) (submenu : list MenuItem).

(** [expandedMenus], a [Record<string, boolean>]: the entry nearest the
    head is the one in force for its title. *)
Definition Expanded := list (string * bool).

(** The keys an object literal inherits from [Object.prototype].  Each
    holds a function or, for [__proto__], the prototype itself. *)
Definition inherited (title : string) : bool :=
  existsb (String.eqb title)
    ["constructor"; "hasOwnProperty"; "isPrototypeOf";
     "propertyIsEnumerable"; "toLocaleString"; "toString"; "valueOf";
     "__proto__"; "__defineGetter__"; "__defineSetter__";
     "__lookupGetter__"; "__lookupSetter__"].

(** [expandedMenus[title]] as a condition: the value stored under the key
    when the record has it; otherwise [undefined], which is falsy, or what
    the key inherits, which is truthy. *)
Fixpoint isExpanded (expandedMenus : Expanded) (title : string) : bool :=
  match expandedMenus with
  | [] => inherited title
  | (t, b) :: rest => if String.eqb t title then b else isExpanded rest title
  end.

(** [toggleSubmenu]: [{ ...prev, [title]: !prev[title] }]. *)
Definition toggleSubmenu (title : string) (prev : Expanded) : Expanded :=
  (title, negb (isExpanded prev title)) :: prev.

Definition initial : Expanded := [("Data Entry", true)].

(** The paths [renderMenuItem] draws for an item: the item itself and,
    when it has a submenu and is expanded, those of its submenu. *)
Fixpoint renderMenuItem (expandedMenus : Expanded) (item : MenuItem)
  : list string :=
  match item with
  | Item title path submenu =>
      let hasSubmenu := match submenu with [] => false | _ => true end in
      path ::
      (if hasSubmenu && isExpanded expandedMenus title
       then (fix each (l : list MenuItem) : list string :=
               match l with
               | [] => []
               | subItem :: l' =>
                   renderMenuItem expandedMenus subItem ++ each l'
               end) submenu
       else [])
  end.

End Sidebar.

(** The pre-check [q] is about what the write [w] stores: every column it
    compares has, in [w], the value compared with, and an id it leaves out
    is the id of the row [w] updates. *)
Definition checksWhatIsWritten (q w : Gateway.Request) : bool :=
  match q with
  | Gateway.Select _ eqs neqId =>
      forallb (fun kv => Gateway.valueEqb (Gateway.get (fst kv) (written w))
                                          (snd kv)) eqs
      && match neqId, w with
         | Some i, Gateway.Update _ _ j => String.eqb i j
         | Some _, _ => false
         | None, _ => true
         end
  | _ => false
  end.
(* ===================================================================== *)
(** * Properties *)
(* ===================================================================== *)

(** ** Strings *)

Lemma all_trimStart (p : ascii -> bool) (s : string) :
  JS.all p s = true -> JS.all p (JS.trimStart s) = true.
Proof.
  induction s as [|c s IH]; simpl; intro H; [reflexivity|].
  apply andb_true_iff in H as [Hc Hs].
  destruct (JS.isWhiteSpace c); [auto|].
  simpl. now rewrite Hc, Hs.
Qed.

Lemma all_trimEnd (p : ascii -> bool) (s : string) :
  JS.all p s = true -> JS.all p (JS.trimEnd s) = true.
Proof.
  induction s as [|c s IH]; simpl; intro H; [reflexivity|].
  apply andb_true_iff in H as [Hc Hs].
  destruct (JS.isWhiteSpace c && JS.isEmpty (JS.trimEnd s)); [reflexivity|].
  simpl. now rewrite Hc, IH.
Qed.

Lemma all_trim (p : ascii -> bool) (s : string) :
  JS.all p s = true -> JS.all p (JS.trim s) = true.
Proof. intro H. unfold JS.trim. now apply all_trimEnd, all_trimStart. Qed.

(** A string of white space only trims to the empty string. *)
Lemma trim_whitespace (s : string) :
  JS.all JS.isWhiteSpace s = true -> JS.trim s = "".
Proof.
  unfold JS.trim. induction s as [|c s IH]; simpl; intro H; [reflexivity|].
  apply andb_true_iff in H as [Hc Hs]. rewrite Hc. auto.
Qed.

(** ** Name validation *)

(** C7.  Typing "Acme" into the company form stores "ACME" and raises no
    error, "ACME" passes the company validator, and a submit of it over an
    empty table inserts the company ACME; typing "Acme-1" stores "ACME-1",
    raises the allow-list error, and a submit of that form is refused with
    no gateway call; "LINE-1" typed into the line form raises no error,
    passes the line validator, and is inserted by a submit. *)
Theorem C7_name_validation :
  (forall (st : NameForm.State) (u : User),
     let st' := CompanyList.handleNameChange "Acme" st in
     NameForm.f_name (Dialog.formData st') = "ACME"
     /\ Dialog.error st' = None
     /\ CompanyList.validateCompanyName "ACME" = true
     /\ requests (CompanyList.handleSubmit emptyBackend (Some u)
                    (CompanyList.handleNameChange "Acme" (nameDialog "")))
        = [Gateway.Select "company" [("name", Gateway.VStr "ACME")] None;
           Gateway.Insert "company"
             [("name", Gateway.VStr "ACME");
              ("created_by", Gateway.VStr (user_id u))]])
  /\ (forall (st : NameForm.State) (gw : Gateway.Backend) (u : User),
        let st' := CompanyList.handleNameChange "Acme-1" st in
        let o := CompanyList.handleSubmit gw (Some u) st' in
        NameForm.f_name (Dialog.formData st') = "ACME-1"
        /\ Dialog.error st'
           = Some "Only English letters (A-Z) and spaces are allowed"
        /\ CompanyList.validateCompanyName "ACME-1" = false
        /\ requests o = []
        /\ Dialog.error (state o) = Some "Invalid company name format")
  /\ (forall (st : LineList.State) (u : User),
        let st' := LineList.handleNameChange "LINE-1" st in
        LineList.f_name (Dialog.formData st') = "LINE-1"
        /\ Dialog.error st' = None
        /\ LineList.validateLineName "LINE-1" = true
        /\ map storedName
             (requests (LineList.handleSubmit emptyBackend (Some u)
                          (LineList.handleNameChange "LINE-1" (lineDialog ""))))
           = [None; Some "LINE-1"]).
Proof.
  split; [|split]; intros; repeat split; reflexivity.
Qed.

(** ** The machine order *)

Lemma includes_In (l : list Z) (n : Z) :
  MachineList.includes l n = true <-> In n l.
Proof.
  unfold MachineList.includes. rewrite existsb_exists. split.
  - intros (x & Hx & E). apply Z.eqb_eq in E. now subst.
  - intro H. exists n. split; [assumption | apply Z.eqb_refl].
Qed.

(** The search for the next free order ends before its fuel does: it
    either stops at an unused number or has found every number it passed
    in use. *)
Lemma nextFree_spec (fuel : nat) (orders : list Z) (n : Z) :
  MachineList.includes orders (MachineList.nextFree fuel orders n) = false
  \/ (forall k, (k < fuel)%nat -> In (n + Z.of_nat k) orders).
Proof.
  revert n. induction fuel as [|fuel IH]; intro n.
  - right. intros k Hk. lia.
  - cbn [MachineList.nextFree].
    destruct (MachineList.includes orders n) eqn:E; [|now left].
    destruct (IH (n + 1)) as [H|H]; [now left|].
    right. intros [|k] Hk.
    + rewrite Z.add_0_r. now apply includes_In.
    + replace (n + Z.of_nat (S k)) with (n + 1 + Z.of_nat k) by lia.
      apply H. lia.
Qed.

(** With the fuel [fetchExistingOrders] gives it, the loop returns a
    number that is not among the fetched orders. *)
Lemma nextFree_not_used (orders : list Z) :
  MachineList.includes orders
    (MachineList.nextFree (S (length orders)) orders 1000) = false.
Proof.
  destruct (nextFree_spec (S (length orders)) orders 1000) as [H|H];
    [exact H|].
  exfalso.
  set (l := map (fun k => 1000 + Z.of_nat k) (seq 0 (S (length orders)))).
  assert (Hnd : NoDup l).
  { apply Injective_map_NoDup; [|apply seq_NoDup].
    intros a b E. lia. }
  assert (Hincl : incl l orders).
  { intros x Hx. apply in_map_iff in Hx as (k & <- & Hk).
    apply in_seq in Hk. apply H. lia. }
  pose proof (NoDup_incl_length Hnd Hincl) as Hlen.
  unfold l in Hlen. rewrite length_map, length_seq in Hlen. lia.
Qed.

Lemma handleOrderChange_order (value : string) (st : MachineList.State) :
  let st' := MachineList.handleOrderChange value st in
  MachineList.f_order (MachineList.formData st')
  = JS.orDefault (JS.parseInt value) 1000
  /\ MachineList.v_order (MachineList.validationErrors st')
     = orderError st (JS.orDefault (JS.parseInt value) 1000).
Proof.
  unfold MachineList.handleOrderChange, orderError.
  set (n := JS.orDefault (JS.parseInt value) 1000).
  cbv zeta.
  destruct ((n <? 1000) || (n >? 9999)); [split; reflexivity|].
  cbn [MachineList.existingOrders MachineList.editingMachine
       MachineList.setFormData].
  destruct (MachineList.includes (MachineList.existingOrders st) n
            && MachineList.notOwnOrder n (MachineList.editingMachine st));
    split; reflexivity.
Qed.




Lemma formErrors_order (st : MachineList.State) :
  MachineList.v_order (MachineList.formErrors st)
  = orderError st (MachineList.f_order (MachineList.formData st)).
Proof. reflexivity. Qed.

(** A submit whose form carries an order error stops before any gateway
    call and shows that error. *)
Lemma handleSubmit_order_error (gw : Gateway.Backend) (u : User)
  (st : MachineList.State) (msg : string) :
  orderError st (MachineList.f_order (MachineList.formData st)) = Some msg ->
  let o := MachineList.handleSubmit gw (Some u) st in
  requests o = []
  /\ MachineList.v_order (MachineList.validationErrors (state o)) = Some msg.
Proof.
  intro H. unfold MachineList.handleSubmit, MachineList.validateForm.
  rewrite formErrors_order, H. cbn [MachineList.isNone].
  rewrite andb_false_r, andb_false_l. cbn.
  split; [reflexivity|]. rewrite <- H. apply formErrors_order.
Qed.

(** C6.  In the machine form, a submit with order 1000 while 1000 is among
    the orders fetched for the selected line, and is not the edited
    machine's own order, is refused with the order-in-use error and no
    gateway call; order 9999 raises no out-of-range error (and no order
    error at all when 9999 is free); every order below 1000 or above 9999,
    10000 among them, is refused with the out-of-range error and no
    gateway call.  The orders a submit compares with are those
    [fetchExistingOrders] read for the line. *)
Theorem C6_machine_order (gw : Gateway.Backend) (u : User)
  (st : MachineList.State) :
  let o := MachineList.handleSubmit gw (Some u) st in
  let n := MachineList.f_order (MachineList.formData st) in
  (n = 1000 ->
   In 1000 (MachineList.existingOrders st) ->
   MachineList.notOwnOrder 1000 (MachineList.editingMachine st) = true ->
   requests o = []
   /\ MachineList.v_order (MachineList.validationErrors (state o))
      = Some MachineList.orderUsedMsg)
  /\ (n = 9999 ->
      MachineList.v_order (MachineList.formErrors st)
      <> Some MachineList.outOfRangeMsg
      /\ (MachineList.includes (MachineList.existingOrders st) 9999
          && MachineList.notOwnOrder 9999 (MachineList.editingMachine st)
          = false ->
          MachineList.v_order (MachineList.formErrors st) = None))
  /\ (n < 1000 \/ n > 9999 ->
      requests o = []
      /\ MachineList.v_order (MachineList.validationErrors (state o))
         = Some MachineList.outOfRangeMsg)
  /\ (n = 10000 -> requests o = [])
  /\ (forall (lineId : string) (rows : list Gateway.Row)
             (ed : option MachineList.Machine),
        JS.isEmpty lineId = false ->
        gw (Gateway.SelectOrders lineId) = Gateway.Matching rows ->
        MachineList.existingOrders
          (MachineList.fetchExistingOrders gw ed lineId st)
        = MachineList.ordersOf rows).
Proof.
  intros o n.
  assert (Hrange : n < 1000 \/ n > 9999 ->
                   requests o = []
                   /\ MachineList.v_order
                        (MachineList.validationErrors (state o))
                      = Some MachineList.outOfRangeMsg).
  { intro H. apply handleSubmit_order_error. unfold orderError. fold n.
    replace ((n <? 1000) || (n >? 9999)) with true; [reflexivity|].
    symmetry. apply orb_true_iff.
    destruct H; [left; apply Z.ltb_lt | right; apply Z.gtb_lt]; lia. }
  split; [|split; [|split; [|split]]].
  - intros E Hin Hown. apply handleSubmit_order_error.
    unfold orderError. fold n. rewrite E. cbn [Z.ltb Z.gtb Z.compare orb].
    apply includes_In in Hin. now rewrite Hin, Hown.
  - intro E. rewrite formErrors_order. unfold orderError. fold n.
    rewrite E. cbn [Z.ltb Z.gtb Z.compare orb].
    split.
    + destruct (MachineList.includes (MachineList.existingOrders st) 9999
                && MachineList.notOwnOrder 9999
                     (MachineList.editingMachine st)); discriminate.
    + intro F. simpl. now rewrite F.
  - exact Hrange.
  - intro E. apply Hrange. lia.
  - intros lineId rows ed Hne Hgw.
    unfold MachineList.fetchExistingOrders. rewrite Hne, Hgw.
    destruct ed; reflexivity.
Qed.

Lemma C6_witness :
  let st := MachineList.setExistingOrders [1000; 1001] blankMachineForm in
  let o := MachineList.handleSubmit (fun _ => Gateway.Success)
             (Some {| user_id := "u1" |}) st in
  requests o = []
  /\ MachineList.v_order (MachineList.validationErrors (state o))
     = Some MachineList.orderUsedMsg.
Proof.
  apply (C6_machine_order (fun _ => Gateway.Success) {| user_id := "u1" |}
           (MachineList.setExistingOrders [1000; 1001] blankMachineForm)).
  - reflexivity.
  - simpl. left. reflexivity.
  - reflexivity.
Defined.

(** ** Backend rejections of a machine *)

(** C9.  When the form passes validation and the backend rejects the
    machine insert or update with error [e]: if [e] has code 23505 and a
    message containing machine_line_order_unique, the order field gets the
    order-in-use error, the banner is left as it was, and the dialog stays
    open with the form as entered; for any other [e] the banner becomes
    "Failed to save machine. Please try again.", again with the dialog open
    and the form as entered.  In both cases the rejected write is the only
    gateway call and no refresh is asked for. *)
Theorem C9_machine_backend_rejection (gw : Gateway.Backend) (u : User)
  (st : MachineList.State) (e : Gateway.PgError) :
  snd (MachineList.validateForm st) = true ->
  (forall r, Gateway.writeError (gw r) = Some e) ->
  let o := MachineList.handleSubmit gw (Some u) st in
  (Gateway.code e = "23505" ->
   JS.includes (Gateway.message e) "machine_line_order_unique" = true ->
   MachineList.v_order (MachineList.validationErrors (state o))
   = Some MachineList.orderUsedMsg
   /\ MachineList.error (state o) = MachineList.error st)
  /\ (Gateway.code e <> "23505"
      \/ JS.includes (Gateway.message e) "machine_line_order_unique" = false ->
      MachineList.error (state o)
      = Some "Failed to save machine. Please try again.")
  /\ MachineList.openDialog (state o) = MachineList.openDialog st
  /\ MachineList.formData (state o) = MachineList.formData st
  /\ MachineList.editingMachine (state o) = MachineList.editingMachine st
  /\ MachineList.success (state o) = MachineList.success st
  /\ (exists w, requests o = [w])
  /\ refresh o = false.
Proof.
  intros Hok Hrej o. subst o.
  unfold MachineList.handleSubmit, MachineList.validateForm in *.
  cbn [snd] in Hok. rewrite Hok. cbn [negb]. rewrite Hrej.
  unfold MachineList.isOrderConflict.
  destruct (String.eqb_spec (Gateway.code e) "23505") as [Ec | Ec];
    destruct (JS.includes (Gateway.message e) "machine_line_order_unique")
      eqn:Em; cbn [andb];
    (split; [intros; try (split; reflexivity); congruence
            |split; [intros [H|H]; try reflexivity; congruence
                    |repeat split; try reflexivity; eexists; reflexivity]]).
Qed.

Lemma C9_witness :
  let st :=
    MachineList.setFormData
      {| MachineList.f_name := "PRESS-1"; MachineList.f_order := 1000;
         MachineList.f_line_id := "line-1" |} blankMachineForm in
  let e := {| Gateway.code := "23505";
              Gateway.message :=
                "duplicate key value violates unique constraint machine_line_order_unique" |} in
  let o := MachineList.handleSubmit (fun _ => Gateway.Failure e)
             (Some {| user_id := "u1" |}) st in
  MachineList.v_order (MachineList.validationErrors (state o))
  = Some MachineList.orderUsedMsg
  /\ MachineList.error (state o) = None
  /\ MachineList.openDialog (state o) = true
  /\ MachineList.formData (state o) = MachineList.formData st.
Proof.
  intros st e o.
  destruct (C9_machine_backend_rejection (fun _ => Gateway.Failure e)
              {| user_id := "u1" |} st e eq_refl (fun _ => eq_refl))
    as (H1 & _ & H3 & H4 & _).
  destruct (H1 eq_refl eq_refl) as [Hv He].
  repeat split; assumption.
Defined.

(** ** Empty names at submit time *)

Lemma whitespace_lettersSpaces (s : string) :
  JS.all JS.isWhiteSpace s = true -> Regex.lettersSpaces s = true.
Proof.
  unfold Regex.lettersSpaces.
  induction s as [|c s IH]; simpl; intro H; [reflexivity|].
  apply andb_true_iff in H as [Hc Hs].
  now rewrite Hc, orb_true_r, IH.
Qed.

(** C2.  On the company page a submit of an empty or white-space-only name
    is not refused: over a table with no company of the empty name the
    handler runs its pre-check and then inserts a company whose name is the
    empty string, and reports success.  The KPI and machine pages do refuse
    such a name with an error and no gateway call. *)
Theorem C2_empty_company_name_is_inserted (u : User) (name : string) :
  JS.all JS.isWhiteSpace name = true ->
  let o := CompanyList.handleSubmit emptyBackend (Some u) (nameDialog name) in
  requests o
  = [Gateway.Select "company" [("name", Gateway.VStr "")] None;
     Gateway.Insert "company"
       [("name", Gateway.VStr ""); ("created_by", Gateway.VStr (user_id u))]]
  /\ Dialog.success (state o) = Some "Company added successfully"
  /\ Dialog.error (state o) = None
  /\ (forall (gw : Gateway.Backend) (unit : string),
        let k := KpiList.handleSubmit gw (Some u) (kpiDialog name unit) in
        requests k = []
        /\ Dialog.error (state k) = Some "Name and unit are required")
  /\ (forall (gw : Gateway.Backend) (st : MachineList.State),
        MachineList.f_name (MachineList.formData st) = name ->
        let m := MachineList.handleSubmit gw (Some u) st in
        requests m = []
        /\ MachineList.v_name (MachineList.validationErrors (state m))
           = Some "Machine name is required").
Proof.
  intros Hws o. subst o.
  split; [|split; [|split; [|split]]].
  1-3: unfold CompanyList.handleSubmit, NameForm.handleSubmit, nameDialog;
    cbn [Dialog.formData NameForm.f_name Dialog.editing truthyId];
    unfold NameForm.validateName;
    rewrite (whitespace_lettersSpaces _ Hws), (trim_whitespace _ Hws);
    reflexivity.
  - intros gw unit k. subst k. unfold KpiList.handleSubmit, kpiDialog.
    cbn [Dialog.formData KpiList.f_name].
    rewrite (trim_whitespace _ Hws). split; reflexivity.
  - intros gw st E m. subst m name.
    unfold MachineList.handleSubmit, MachineList.validateForm,
      MachineList.formErrors.
    rewrite (trim_whitespace _ Hws).
    cbn [JS.isEmpty MachineList.v_name MachineList.isNone andb negb
         requests state MachineList.validationErrors
         MachineList.setValidationErrors].
    split; reflexivity.
Qed.

Lemma C2_witness :
  requests (CompanyList.handleSubmit emptyBackend
              (Some {| user_id := "u1" |}) (nameDialog ""))
  = [Gateway.Select "company" [("name", Gateway.VStr "")] None;
     Gateway.Insert "company"
       [("name", Gateway.VStr ""); ("created_by", Gateway.VStr "u1")]].
Proof.
  exact (proj1 (C2_empty_company_name_is_inserted
                  {| user_id := "u1" |} "" eq_refl)).
Defined.

(** ** The character set of stored names *)

Lemma all_and (p q r : ascii -> bool) (s : string) :
  (forall c, p c = true -> q c = true -> r c = true) ->
  JS.all p s = true -> JS.all q s = true -> JS.all r s = true.
Proof.
  intro Hpq. induction s as [|c s IH]; simpl; [reflexivity|].
  intros Hp Hq.
  apply andb_true_iff in Hp as [Hp1 Hp2].
  apply andb_true_iff in Hq as [Hq1 Hq2].
  now rewrite (Hpq c Hp1 Hq1), IH.
Qed.

Lemma lettersSpaces_plain (s : string) :
  Regex.lettersSpaces s = true -> plainSpaces s = true ->
  upperAndSpaces s = true.
Proof.
  apply all_and. intros c H1 H2.
  destruct (JS.isUpperAZ c); [reflexivity|].
  simpl in *. now rewrite H1 in H2.
Qed.

Lemma lettersDigits_plain (s : string) :
  Regex.lettersDigitsSpacesHyphen s = true -> plainSpaces s = true ->
  upperDigitsSpacesHyphens s = true.
Proof.
  apply all_and. intros c H1 H2.
  destruct (JS.isUpperAZ c); [reflexivity|].
  destruct (JS.isDigit c); [reflexivity|].
  destruct (JS.isHyphen c); [now rewrite orb_true_r|].
  simpl in *. rewrite orb_false_r in H1. rewrite H1 in H2.
  simpl in H2. now rewrite H2.
Qed.

(** What the trimmed name of a validated form satisfies. *)
Lemma trimmed_upperAndSpaces (s : string) :
  Regex.lettersSpaces s = true -> plainSpaces s = true ->
  upperAndSpaces (JS.trim s) = true.
Proof.
  intros H1 H2. apply lettersSpaces_plain; now apply all_trim.
Qed.

Lemma trimmed_upperDigits (s : string) :
  Regex.lettersDigitsSpacesHyphen s = true -> plainSpaces s = true ->
  upperDigitsSpacesHyphens (JS.trim s) = true.
Proof.
  intros H1 H2. apply lettersDigits_plain; now apply all_trim.
Qed.

Lemma NameForm_stored_names (L : NameForm.Labels) (gw : Gateway.Backend)
  (user : option User) (st : NameForm.State) :
  plainSpaces (NameForm.f_name (Dialog.formData st)) = true ->
  storedNamesOk upperAndSpaces (requests (NameForm.handleSubmit L gw user st))
  = true.
Proof.
  intro Hp. unfold NameForm.handleSubmit.
  destruct user as [u|]; [|reflexivity].
  destruct (NameForm.validateName (NameForm.f_name (Dialog.formData st)))
    eqn:Hv; [|reflexivity].
  cbn [negb].
  pose proof (trimmed_upperAndSpaces _ Hv Hp) as Hn.
  destruct (Gateway.maybeSingle _); [reflexivity|].
  destruct (Dialog.editing st);
    destruct (Gateway.writeError _); cbn; now rewrite Hn.
Qed.

Lemma ScopedForm_stored_names (L : ScopedForm.Labels) (gw : Gateway.Backend)
  (user : option User) (st : ScopedForm.State) :
  plainSpaces (ScopedForm.f_name (Dialog.formData st)) = true ->
  storedNamesOk upperAndSpaces
    (requests (ScopedForm.handleSubmit L gw user st)) = true.
Proof.
  intro Hp. unfold ScopedForm.handleSubmit.
  destruct user as [u|]; [|reflexivity].
  destruct (ScopedForm.validateName
              (ScopedForm.f_name (Dialog.formData st))) eqn:Hv;
    [|reflexivity].
  cbn [negb].
  destruct (JS.isEmpty (ScopedForm.f_parent_id (Dialog.formData st)));
    [reflexivity|].
  pose proof (trimmed_upperAndSpaces _ Hv Hp) as Hn.
  destruct (Gateway.maybeSingle _); [reflexivity|].
  destruct (Dialog.editing st);
    destruct (Gateway.writeError _); cbn; now rewrite Hn.
Qed.

Lemma LineList_stored_names (gw : Gateway.Backend) (user : option User)
  (st : LineList.State) :
  plainSpaces (LineList.f_name (Dialog.formData st)) = true ->
  storedNamesOk upperDigitsSpacesHyphens
    (requests (LineList.handleSubmit gw user st)) = true.
Proof.
  intro Hp. unfold LineList.handleSubmit.
  destruct user as [u|]; [|reflexivity].
  destruct (LineList.validateLineName
              (LineList.f_name (Dialog.formData st))) eqn:Hv;
    [|reflexivity].
  cbn [negb].
  destruct (JS.isEmpty _ || JS.isEmpty _ || JS.isEmpty _); [reflexivity|].
  pose proof (trimmed_upperDigits _ Hv Hp) as Hn.
  destruct (Gateway.maybeSingle _); [reflexivity|].
  destruct (Dialog.editing st);
    destruct (Gateway.writeError _); cbn; now rewrite Hn.
Qed.

Lemma MachineList_stored_names (gw : Gateway.Backend) (user : option User)
  (st : MachineList.State) :
  plainSpaces (MachineList.f_name (MachineList.formData st)) = true ->
  storedNamesOk upperDigitsSpacesHyphens
    (requests (MachineList.handleSubmit gw user st)) = true.
Proof.
  intro Hp. unfold MachineList.handleSubmit.
  destruct user as [u|]; [|reflexivity].
  unfold MachineList.validateForm.
  destruct (MachineList.isNone (MachineList.v_name (MachineList.formErrors st)))
    eqn:Hname; [|reflexivity].
  destruct (MachineList.isNone (MachineList.v_order _)); [|reflexivity].
  destruct (MachineList.isNone (MachineList.v_line _)); [|reflexivity].
  cbn [andb negb].
  assert (Hv : MachineList.validateMachineName
                 (MachineList.f_name (MachineList.formData st)) = true).
  { unfold MachineList.formErrors in Hname. cbn [MachineList.v_name] in Hname.
    destruct (JS.isEmpty _); [discriminate|].
    destruct (MachineList.validateMachineName _); [reflexivity|discriminate]. }
  pose proof (trimmed_upperDigits _ Hv Hp) as Hn.
  destruct (MachineList.editingMachine st);
    destruct (Gateway.writeError _) as [e|];
    try destruct (MachineList.isOrderConflict e); cbn; now rewrite Hn.
Qed.

(** C3 (as the code has it).  On the company, country, line type, city and
    district pages every name stored by an insert or update consists of
    uppercase letters and spaces only, and on the line and machine pages of
    uppercase letters, digits, spaces and hyphens only, whenever the form's
    name holds no white space other than the space character.  The KPI
    page is not part of the statement: it has no name validator. *)
Theorem C3_stored_names_restricted (gw : Gateway.Backend)
  (user : option User) :
  (forall st, plainSpaces (NameForm.f_name (Dialog.formData st)) = true ->
     storedNamesOk upperAndSpaces
       (requests (CompanyList.handleSubmit gw user st)) = true)
  /\ (forall st, plainSpaces (NameForm.f_name (Dialog.formData st)) = true ->
        storedNamesOk upperAndSpaces
          (requests (CountryList.handleSubmit gw user st)) = true)
  /\ (forall st, plainSpaces (NameForm.f_name (Dialog.formData st)) = true ->
        storedNamesOk upperAndSpaces
          (requests (LineTypeList.handleSubmit gw user st)) = true)
  /\ (forall st, plainSpaces (ScopedForm.f_name (Dialog.formData st)) = true ->
        storedNamesOk upperAndSpaces
          (requests (CityList.handleSubmit gw user st)) = true)
  /\ (forall st, plainSpaces (ScopedForm.f_name (Dialog.formData st)) = true ->
        storedNamesOk upperAndSpaces
          (requests (DistrictList.handleSubmit gw user st)) = true)
  /\ (forall st, plainSpaces (LineList.f_name (Dialog.formData st)) = true ->
        storedNamesOk upperDigitsSpacesHyphens
          (requests (LineList.handleSubmit gw user st)) = true)
  /\ (forall st,
        plainSpaces (MachineList.f_name (MachineList.formData st)) = true ->
        storedNamesOk upperDigitsSpacesHyphens
          (requests (MachineList.handleSubmit gw user st)) = true).
Proof.
  repeat split; intros st Hp.
  - now apply NameForm_stored_names.
  - now apply NameForm_stored_names.
  - now apply NameForm_stored_names.
  - now apply ScopedForm_stored_names.
  - now apply ScopedForm_stored_names.
  - now apply LineList_stored_names.
  - now apply MachineList_stored_names.
Qed.

Lemma C3_witness :
  let o := CompanyList.handleSubmit emptyBackend (Some {| user_id := "u1" |})
             (nameDialog " ACME CORP ") in
  storedNamesOk upperAndSpaces (requests o) = true
  /\ map storedName (requests o) = [None; Some "ACME CORP"].
Proof.
  split.
  - apply (proj1 (C3_stored_names_restricted emptyBackend
                    (Some {| user_id := "u1" |}))).
    reflexivity.
  - reflexivity.
Defined.

(** C3 as stated fails on the KPI page: the name typed as "kWh total" is
    stored as typed, lowercase letters included, by the insert. *)
Lemma C3_kpi_name_stored_as_typed :
  let st := KpiList.handleUnitChange "kWh"
              (KpiList.handleNameChange "kWh total" (kpiDialog "" "")) in
  let o := KpiList.handleSubmit emptyBackend (Some {| user_id := "u1" |}) st in
  map storedName (requests o) = [None; Some "kWh total"]
  /\ existsb isWrite (requests o) = true
  /\ storedNamesOk upperAndSpaces (requests o) = false
  /\ storedNamesOk upperDigitsSpacesHyphens (requests o) = false.
Proof. repeat split. Qed.

(** ** The uniqueness pre-check of a city *)

Lemma valueEqb_VStr (v : Gateway.Value) (s : string) :
  Gateway.valueEqb v (Gateway.VStr s) = true <-> v = Gateway.VStr s.
Proof.
  destruct v as [|n|t]; simpl; split; try discriminate.
  - intro H. apply String.eqb_eq in H. now subst.
  - intro H. injection H as ->. apply String.eqb_refl.
Qed.











(** ** The page window *)

Lemma length_insertSorted (le : Gateway.Row -> Gateway.Row -> bool)
  (x : Gateway.Row) (l : list Gateway.Row) :
  length (Gateway.insertSorted le x l) = S (length l).
Proof.
  induction l as [|y l IH]; simpl; [reflexivity|].
  destruct (le x y); simpl; [reflexivity | now rewrite IH].
Qed.

Lemma length_sortRows (le : Gateway.Row -> Gateway.Row -> bool)
  (l : list Gateway.Row) :
  length (Gateway.sortRows le l) = length l.
Proof.
  induction l as [|x l IH]; simpl; [reflexivity|].
  now rewrite length_insertSorted, IH.
Qed.

Lemma length_matching (rows : list Gateway.Row) (q : Gateway.ListQuery) :
  length (Gateway.matching rows q)
  = length (filter (Gateway.matches q) rows).
Proof. apply length_sortRows. Qed.

(** The window of page [p] at [n] rows per page. *)
Lemma window_page (p n : Z) (l : list Gateway.Row) :
  0 <= p -> 0 < n ->
  Gateway.window (p * n) ((p + 1) * n - 1) l
  = firstn (Z.to_nat n) (skipn (Z.to_nat (p * n)) l).
Proof.
  intros Hp Hn. unfold Gateway.window.
  replace ((p + 1) * n - 1 - p * n + 1) with n by lia. reflexivity.
Qed.

(** C4.  For a page index [p >= 0] and a page size [n > 0] the list query
    asks for the rows from [p * n] to [(p + 1) * n - 1] with an exact
    count; the gateway answers with the rows at exactly those positions of
    the filtered, sorted result (fewer when the result ends earlier) and
    with the number of all rows matching the filter.  With 47 matching
    rows, 15 rows per page and page 3, the answer holds the two rows at
    positions 45 and 46 and the count 47. *)
Theorem C4_page_window (e : Search.Entity) (c : Search.Closure)
  (term : string) (rows : list Gateway.Row) :
  0 <= Search.c_page c ->
  0 < Search.c_rowsPerPage c ->
  let p := Search.c_page c in
  let n := Search.c_rowsPerPage c in
  let q := Search.searchQuery e c term in
  let full := Gateway.matching rows q in
  let hits := length (filter (Gateway.matches q) rows) in
  Gateway.l_from q = p * n
  /\ Gateway.l_to q = (p + 1) * n - 1
  /\ Gateway.l_countExact q = true
  /\ exists page,
       Gateway.runList rows q
       = Gateway.ListOk (Some page) (Some (Z.of_nat hits))
       /\ (forall i,
             nth_error page i
             = if (i <? Z.to_nat n)%nat
               then nth_error full (Z.to_nat (p * n) + i)
               else None)
       /\ length page = Nat.min (Z.to_nat n) (hits - Z.to_nat (p * n))
       /\ (hits = 47%nat -> n = 15 -> p = 3 ->
           length page = 2%nat
           /\ nth_error page 0 = nth_error full 45
           /\ nth_error page 1 = nth_error full 46
           /\ Z.of_nat hits = 47).
Proof.
  intros Hp Hn p n q full hits.
  split; [reflexivity|]. split; [reflexivity|]. split; [reflexivity|].
  exists (firstn (Z.to_nat n) (skipn (Z.to_nat (p * n)) full)).
  assert (Hfull : length full = hits) by apply length_matching.
  assert (Hnth : forall i,
             nth_error (firstn (Z.to_nat n) (skipn (Z.to_nat (p * n)) full)) i
             = if (i <? Z.to_nat n)%nat
               then nth_error full (Z.to_nat (p * n) + i)
               else None).
  { intro i. rewrite nth_error_firstn.
    destruct (i <? Z.to_nat n)%nat; [apply nth_error_skipn | reflexivity]. }
  assert (Hlen : length (firstn (Z.to_nat n) (skipn (Z.to_nat (p * n)) full))
                 = Nat.min (Z.to_nat n) (hits - Z.to_nat (p * n)))
    by now rewrite length_firstn, length_skipn, Hfull.
  split; [|split; [exact Hnth | split; [exact Hlen|]]].
  - unfold Gateway.runList. fold full. rewrite Hfull.
    change (Gateway.l_from q) with (p * n).
    change (Gateway.l_to q) with ((p + 1) * n - 1).
    now rewrite window_page.
  - intros H47 H15 H3.
    rewrite Hlen, (Hnth 0%nat), (Hnth 1%nat), H47, H15, H3.
    repeat split.
Qed.

Lemma C4_witness :
  exists page,
    Gateway.runList table47 (Search.searchQuery Search.City page3of15 "")
    = Gateway.ListOk (Some page) (Some 47)
    /\ length page = 2%nat.
Proof.
  destruct (C4_page_window Search.City page3of15 "" table47)
    as (_ & _ & _ & page & Hrun & _ & _ & H47).
  - cbn. lia.
  - cbn. lia.
  - exists page. split; [exact Hrun|].
    apply H47; reflexivity.
Defined.

(** ** The search filter *)

Lemma likeMatch_percent (p s : string) :
  Gateway.likeMatch (String "%" p) s
  = Gateway.likeMatch p s
    || match s with
       | EmptyString => false
       | String _ s' => Gateway.likeMatch (String "%" p) s'
       end.
Proof. destruct s; reflexivity. Qed.

Lemma likeMatch_literal (c : ascii) (p s : string) :
  Gateway.isMeta c = false ->
  Gateway.likeMatch (String c p) s
  = match s with
    | String a s' => Ascii.eqb c a && Gateway.likeMatch p s'
    | EmptyString => false
    end.
Proof.
  unfold Gateway.isMeta. intro H.
  apply orb_false_iff in H as [H Hb]. apply orb_false_iff in H as [H Hu].
  apply orb_false_iff in H as [Hp _].
  cbn [Gateway.likeMatch]. rewrite Hp, Hu, Hb. reflexivity.
Qed.

Lemma likeMatch_any (s : string) : Gateway.likeMatch "%" s = true.
Proof.
  induction s as [|c s IH]; [reflexivity|].
  rewrite likeMatch_percent. rewrite IH. apply orb_true_r.
Qed.

(** A pattern of literal characters followed by [%] matches the strings
    that start with those characters. *)
Lemma likeMatch_prefix (p s : string) :
  noPatternChars p = true ->
  Gateway.likeMatch (String.append p "%") s = JS.startsWith p s.
Proof.
  revert s. induction p as [|c p IH]; intros s H.
  - simpl. apply likeMatch_any.
  - simpl in H. apply andb_true_iff in H as [Hc Hp].
    apply negb_true_iff in Hc.
    cbn [String.append]. rewrite (likeMatch_literal _ _ _ Hc).
    destruct s as [|a s]; [reflexivity|].
    cbn [JS.startsWith]. now rewrite IH.
Qed.

(** Between two [%], such a pattern matches the strings that contain
    those characters. *)
Lemma likeMatch_substring (p s : string) :
  noPatternChars p = true ->
  Gateway.likeMatch (String "%" (String.append p "%")) s = JS.includes s p.
Proof.
  intro H. induction s as [|a s IH].
  - rewrite likeMatch_percent, (likeMatch_prefix _ _ H).
    cbn [JS.includes]. reflexivity.
  - rewrite likeMatch_percent, (likeMatch_prefix _ _ H), IH.
    cbn [JS.includes]. reflexivity.
Qed.

Lemma toLowerCase_append (a b : string) :
  JS.toLowerCase (String.append a b)
  = String.append (JS.toLowerCase a) (JS.toLowerCase b).
Proof.
  induction a as [|c a IH]; [reflexivity|].
  cbn [String.append JS.toLowerCase]. now rewrite IH.
Qed.

Lemma lowerChar_notMeta (c : ascii) :
  Gateway.isMeta c = false -> Gateway.isMeta (JS.lowerChar c) = false.
Proof.
  destruct c as [[] [] [] [] [] [] [] []]; intro H;
    solve [reflexivity | discriminate H].
Qed.

Lemma toLowerCase_noPatternChars (s : string) :
  noPatternChars s = true -> noPatternChars (JS.toLowerCase s) = true.
Proof.
  unfold noPatternChars.
  induction s as [|c s IH]; [reflexivity|].
  cbn [JS.all JS.toLowerCase]. intro H.
  apply andb_true_iff in H as [Hc Hs].
  apply negb_true_iff in Hc.
  now rewrite (lowerChar_notMeta _ Hc), IH.
Qed.

Lemma starToPercent_literal (s : string) :
  noPatternChars s = true -> Gateway.starToPercent s = s.
Proof.
  unfold noPatternChars.
  induction s as [|c s IH]; [reflexivity|].
  cbn [JS.all Gateway.starToPercent]. intro H.
  apply andb_true_iff in H as [Hc Hs]. rewrite (IH Hs).
  apply negb_true_iff in Hc. unfold Gateway.isMeta in Hc.
  destruct (Gateway.isStar c); [|reflexivity].
  now rewrite orb_true_r in Hc.
Qed.

Lemma starToPercent_append (a b : string) :
  Gateway.starToPercent (String.append a b)
  = String.append (Gateway.starToPercent a) (Gateway.starToPercent b).
Proof.
  induction a as [|c a IH]; [reflexivity|].
  cbn [String.append Gateway.starToPercent]. now rewrite IH.
Qed.

(** For a term without pattern characters, [ilike '%term%'] is
    containment up to letter case. *)
Lemma ilike_contains (term name : string) :
  noPatternChars term = true ->
  Gateway.ilike (String.append "%" (String.append term "%")) name
  = Search.containsCI name term.
Proof.
  intro H. unfold Gateway.ilike, Search.containsCI.
  cbn [String.append Gateway.starToPercent]. rewrite starToPercent_append.
  rewrite (starToPercent_literal _ H).
  change (Gateway.isStar "%") with false. cbn iota.
  change (Gateway.starToPercent "%") with "%".
  cbn [JS.toLowerCase].
  rewrite toLowerCase_append.
  change (JS.lowerChar "%") with "%"%char.
  change (JS.toLowerCase "%") with "%".
  apply likeMatch_substring. now apply toLowerCase_noPatternChars.
Qed.

Lemma In_insertSorted (le : Gateway.Row -> Gateway.Row -> bool)
  (x y : Gateway.Row) (l : list Gateway.Row) :
  In x (Gateway.insertSorted le y l) -> x = y \/ In x l.
Proof.
  induction l as [|z l IH]; simpl.
  - intros [->|[]]. now left.
  - destruct (le y z); simpl.
    + intros [->|H]; [now left | now right].
    + intros [->|H]; [right; now left|].
      destruct (IH H) as [->|H']; [now left | right; now right].
Qed.

Lemma In_sortRows (le : Gateway.Row -> Gateway.Row -> bool)
  (x : Gateway.Row) (l : list Gateway.Row) :
  In x (Gateway.sortRows le l) -> In x l.
Proof.
  induction l as [|y l IH]; simpl; [tauto|].
  intro H. apply In_insertSorted in H as [->|H]; [now left|].
  right. now apply IH.
Qed.

Lemma In_window (from to : Z) (x : Gateway.Row) (l : list Gateway.Row) :
  In x (Gateway.window from to l) -> In x l.
Proof.
  unfold Gateway.window. intro H.
  rewrite <- (firstn_skipn (Z.to_nat from) l). apply in_or_app. right.
  rewrite <- (firstn_skipn (Z.to_nat (to - from + 1))
                           (skipn (Z.to_nat from) l)).
  apply in_or_app. now left.
Qed.

(** Every row the gateway returns for a list query passes its filter. *)
Lemma runList_matches (rows : list Gateway.Row) (q : Gateway.ListQuery)
  (page : list Gateway.Row) (count : option Z) (r : Gateway.Row) :
  Gateway.runList rows q = Gateway.ListOk (Some page) count ->
  In r page -> Gateway.matches q r = true.
Proof.
  unfold Gateway.runList. intros H Hin. injection H as <- _.
  apply In_window in Hin. unfold Gateway.matching in Hin.
  apply In_sortRows in Hin. apply filter_In in Hin. tauto.
Qed.

(** The rows returned for a term without pattern characters all contain
    it. *)
Lemma runList_contains (e : Search.Entity) (c : Search.Closure)
  (term : string) (rows : list Gateway.Row) (page : list Gateway.Row)
  (count : option Z) :
  noPatternChars term = true ->
  Gateway.runList rows (Search.searchQuery e c term)
  = Gateway.ListOk (Some page) count ->
  allContain term page = true.
Proof.
  intros Hm Hrun. unfold allContain. apply forallb_forall. intros r Hin.
  pose proof (runList_matches _ _ _ _ _ Hrun Hin) as Hmatch.
  unfold Gateway.matches, Search.searchQuery in Hmatch.
  cbn [Gateway.l_ilike] in Hmatch.
  destruct term as [|a term'] eqn:Et.
  - unfold Search.containsCI.
    destruct (JS.toLowerCase (Search.nameOf r)); reflexivity.
  - rewrite <- Et in *. assert (JS.isEmpty term = false) as Hne
      by (rewrite Et; reflexivity).
    rewrite Hne in Hmatch. unfold Search.nameOf.
    destruct (Gateway.get "name" r) as [|n|s]; try discriminate.
    now rewrite <- (ilike_contains _ _ Hm).
Qed.

(** ** The debounce timer *)

Lemma orderEqb_eq (a b : Search.Order) :
  Search.orderEqb a b = true -> a = b.
Proof. destruct a, b; simpl; congruence. Qed.

Lemma sameDeps_eq (a b : Search.View) :
  Search.sameDeps a b = true ->
  Search.closureOf a = Search.closureOf b
  /\ Search.searchTerm a = Search.searchTerm b.
Proof.
  unfold Search.sameDeps. rewrite !andb_true_iff.
  intros ((((Ht & Ho) & Hd) & Hp) & Hr).
  apply String.eqb_eq in Ht, Ho. apply orderEqb_eq in Hd.
  apply Z.eqb_eq in Hp, Hr.
  unfold Search.closureOf. now rewrite Ho, Hd, Hp, Hr.
Qed.

Lemma sameDeps_withSearch_ne (t : string) (v : Search.View) :
  Search.searchTerm v <> t ->
  Search.sameDeps v (Search.withSearch t v) = false.
Proof.
  intro H. unfold Search.sameDeps. cbn [Search.searchTerm Search.withSearch].
  apply String.eqb_neq in H. now rewrite H.
Qed.

(** A change of the search box to a new term restarts the timer. *)
Lemma searchChange_new (e : Search.Entity) (st : Search.State) (t : string) :
  Search.searchTerm (Search.view st) <> t ->
  let st' := Search.step e st (Search.SearchChange t) in
  armed st' (Search.now st + Search.wait)
  /\ Search.now st' = Search.now st
  /\ Search.issued st' = Search.issued st
  /\ Search.inflight st' = Search.inflight st
  /\ Search.view st' = Search.withSearch t (Search.view st).
Proof.
  intros H st'. subst st'. cbn [Search.step]. unfold Search.render.
  rewrite (sameDeps_withSearch_ne _ _ H). unfold Search.schedule, armed.
  cbn. repeat split.
  eexists. repeat split; cbn; lia.
Qed.

(** While a call is pending, a change of the search box keeps one
    pending, due no earlier. *)
Lemma searchChange_armed (e : Search.Entity) (st : Search.State)
  (t : string) (lo : N) :
  armed st lo ->
  let st' := Search.step e st (Search.SearchChange t) in
  armed st' lo
  /\ Search.now st' = Search.now st
  /\ Search.issued st' = Search.issued st
  /\ Search.inflight st' = Search.inflight st
  /\ Search.view st' = Search.withSearch t (Search.view st).
Proof.
  intros (p & Ht & Hc & Hterm & Hlo & Hhi) st'. subst st'.
  cbn [Search.step]. unfold Search.render.
  destruct (Search.sameDeps (Search.view st)
              (Search.withSearch t (Search.view st))) eqn:E.
  - apply sameDeps_eq in E as [Ec Es].
    cbn. repeat split.
    exists p. cbn [Search.timer Search.view Search.now].
    rewrite <- Ec, <- Es. repeat split; assumption.
  - unfold Search.schedule. cbn. repeat split.
    eexists. repeat split; cbn; lia.
Qed.

(** Time that ends before the pending call is due changes nothing but the
    clock. *)
Lemma tick_quiet (e : Search.Entity) (st : Search.State) (d lo : N) :
  armed st lo ->
  (Search.now st + d < lo)%N ->
  let st' := Search.step e st (Search.Tick d) in
  armed st' lo
  /\ Search.now st' = (Search.now st + d)%N
  /\ Search.issued st' = Search.issued st
  /\ Search.inflight st' = Search.inflight st
  /\ Search.view st' = Search.view st.
Proof.
  intros (p & Ht & Hc & Hterm & Hlo & Hhi) Hd st'. subst st'.
  cbn [Search.step]. unfold Search.advance. rewrite Ht.
  cbn [Search.now].
  destruct (N.leb_spec (Search.deadline p) (Search.now st + d)); [lia|].
  cbn. repeat split.
  exists p. cbn. repeat split; try assumption. lia.
Qed.

(** Once the wait has passed, the pending call sends the query for the
    state on screen. *)
Lemma tick_fires (e : Search.Entity) (st : Search.State) (d lo : N) :
  armed st lo ->
  (Search.wait <= d)%N ->
  let st' := Search.step e st (Search.Tick d) in
  let q := Search.currentQuery e (Search.view st) in
  Search.issued st' = q :: Search.issued st
  /\ Search.inflight st' = (length (Search.issued st), q) :: Search.inflight st
  /\ Search.timer st' = None.
Proof.
  intros (p & Ht & Hc & Hterm & Hlo & Hhi) Hd st'. subst st'.
  cbn [Search.step]. unfold Search.advance. rewrite Ht.
  cbn [Search.now].
  destruct (N.leb_spec (Search.deadline p) (Search.now st + d)); [|lia].
  unfold Search.fire, Search.currentQuery. cbn. rewrite Hc, Hterm.
  repeat split.
Qed.

(** Three keystrokes inside one debounce window send one query, for the
    last term. *)
Lemma threeKeystrokes_one_query (e : Search.Entity) (st : Search.State)
  (t1 t2 t3 : string) (d1 d2 d3 : N) :
  Search.searchTerm (Search.view st) <> t1 ->
  (d1 + d2 < Search.wait)%N ->
  (Search.wait <= d3)%N ->
  let st' := Search.run e st (threeKeystrokes t1 t2 t3 d1 d2 d3) in
  let q := Search.searchQuery e (firstPage (Search.view st)) t3 in
  Search.issued st' = q :: Search.issued st
  /\ Search.inflight st' = (length (Search.issued st), q) :: Search.inflight st
  /\ Search.timer st' = None.
Proof.
  intros Hnew Hgap Hwait st' q. subst st' q.
  unfold threeKeystrokes, Search.run. cbn [fold_left].
  destruct (searchChange_new e st t1 Hnew) as (A1 & N1 & I1 & F1 & V1).
  set (s1 := Search.step e st (Search.SearchChange t1)) in *.
  destruct (tick_quiet e s1 d1 _ A1) as (A2 & N2 & I2 & F2 & V2);
    [rewrite N1; lia|].
  set (s2 := Search.step e s1 (Search.Tick d1)) in *.
  destruct (searchChange_armed e s2 t2 _ A2) as (A3 & N3 & I3 & F3 & V3).
  set (s3 := Search.step e s2 (Search.SearchChange t2)) in *.
  destruct (tick_quiet e s3 d2 _ A3) as (A4 & N4 & I4 & F4 & V4);
    [rewrite N3, N2, N1; lia|].
  set (s4 := Search.step e s3 (Search.Tick d2)) in *.
  destruct (searchChange_armed e s4 t3 _ A4) as (A5 & N5 & I5 & F5 & V5).
  set (s5 := Search.step e s4 (Search.SearchChange t3)) in *.
  destruct (tick_fires e s5 d3 _ A5 Hwait) as (I6 & F6 & T6).
  rewrite I6, F6, T6, I5, I4, I3, I2, I1, F5, F4, F3, F2, F1.
  rewrite V5, V4, V3, V2, V1.
  repeat split.
Qed.

Lemma lookup_head (id : nat) (q : Gateway.ListQuery)
  (l : list (nat * Gateway.ListQuery)) :
  Search.lookup id ((id, q) :: l) = Some q.
Proof. simpl. now rewrite Nat.eqb_refl. Qed.

(** C5 (as the code has it).  Three changes of the search box, the first
    one to a new term and all three within one 300 ms window, followed by
    300 ms of quiet, send exactly one list query; it is the first-page
    query for the last term, filtered (when the term is not empty) by
    [name ilike '%term%'].  When the term holds none of the pattern
    characters percent, underscore, backslash and asterisk, every row of
    the answer to that query has a name containing the term, letter case
    aside; these are the rows the table shows at the moment the answer is
    applied, be it at once or after further events with the query still
    awaited. *)
Theorem C5_debounced_search (e : Search.Entity) (st : Search.State)
  (t1 t2 t3 : string) (d1 d2 d3 : N) (table : list Gateway.Row) :
  Search.searchTerm (Search.view st) <> t1 ->
  (d1 + d2 < Search.wait)%N ->
  (Search.wait <= d3)%N ->
  let st' := Search.run e st (threeKeystrokes t1 t2 t3 d1 d2 d3) in
  let q := Search.searchQuery e (firstPage (Search.view st)) t3 in
  let answered :=
    Search.step e st'
      (Search.Response (length (Search.issued st)) (Gateway.runList table q)) in
  Search.issued st' = q :: Search.issued st
  /\ Gateway.l_ilike q
     = (if JS.isEmpty t3 then None
        else Some ("name", String.append "%" (String.append t3 "%")))
  /\ (noPatternChars t3 = true ->
      allContain t3 (Search.rows (Search.view answered)) = true)
  /\ (noPatternChars t3 = true ->
      forall later : Search.State,
        Search.lookup (length (Search.issued st)) (Search.inflight later)
        <> None ->
        allContain t3
          (Search.rows
             (Search.view
                (Search.step e later
                   (Search.Response (length (Search.issued st))
                                    (Gateway.runList table q))))) = true).
Proof.
  intros Hnew Hgap Hwait st' q answered.
  destruct (threeKeystrokes_one_query e st t1 t2 t3 d1 d2 d3 Hnew Hgap Hwait)
    as (Hi & Hf & _).
  fold st' q in Hi, Hf.
  split; [exact Hi|]. split; [reflexivity|]. split.
  - intro Hm. subst answered. cbn [Search.step]. unfold Search.resume.
    rewrite Hf, lookup_head.
    cbn [Search.view Gateway.runList Search.withResult Search.rows].
    eapply runList_contains; [exact Hm | reflexivity].
  - intros Hm later Hl. cbn [Search.step]. unfold Search.resume.
    destruct (Search.lookup _ (Search.inflight later)); [|contradiction].
    cbn [Search.view Gateway.runList Search.withResult Search.rows].
    eapply runList_contains; [exact Hm | reflexivity].
Qed.

(** On the company page over ALPHA and ALBA, with the first page on
    screen: the keystrokes "a", "al", "alp" send the one query for "alp"
    (the second of the page, after the one sent on mounting), whose answer
    leaves ALPHA in the table. *)
Lemma C5_witness :
  let st := mounted Search.Company twoCompanies in
  let st' := Search.run Search.Company st
               (threeKeystrokes "a" "al" "alp" 100 100 300) in
  let answered :=
    Search.step Search.Company st'
      (Search.Response 1 (Gateway.runList twoCompanies (companyQuery "alp"))) in
  Search.spinner (Search.view st) = false
  /\ Search.issued st' = [companyQuery "alp"; companyQuery ""]
  /\ map Search.nameOf (Search.rows (Search.view answered)) = ["ALPHA"]
  /\ allContain "alp" (Search.rows (Search.view answered)) = true.
Proof.
  intros st st' answered.
  assert (H1 : Search.searchTerm (Search.view st) <> "a") by discriminate.
  assert (H2 : (100 + 100 < Search.wait)%N) by reflexivity.
  assert (H3 : (Search.wait <= 300)%N) by discriminate.
  destruct (C5_debounced_search Search.Company st "a" "al" "alp" 100 100 300
              twoCompanies H1 H2 H3) as (Hi & _ & Hc & _).
  split; [reflexivity|]. split; [exact Hi|].
  split; [reflexivity | exact (Hc eq_refl)].
Defined.

(** C5 as stated fails, on the company page over ALPHA and ALBA with the
    first page on screen, in two ways.  With a pattern character: after
    the keystrokes "A", "A_", "A_P" the one query sent filters by
    [name ilike '%A_P%'], and its answer puts ALPHA into the table, whose
    name does not contain "A_P".  And in time: after the keystrokes "a",
    "al", "alp" and the 300 ms, with the query for "alp" sent but not yet
    answered, the search box holds "alp" while the table still shows ALBA
    and ALPHA. *)
Lemma C5_shown_rows_need_not_contain_the_term :
  let st := mounted Search.Company twoCompanies in
  let st1 := Search.run Search.Company st
               (threeKeystrokes "A" "A_" "A_P" 50 50 300) in
  let answered :=
    Search.step Search.Company st1
      (Search.Response 1 (Gateway.runList twoCompanies (companyQuery "A_P"))) in
  let st2 := Search.run Search.Company st
               (threeKeystrokes "a" "al" "alp" 100 100 300) in
  Search.spinner (Search.view st) = false
  /\ (Search.issued st1 = [companyQuery "A_P"; companyQuery ""]
      /\ map Search.nameOf (Search.rows (Search.view answered)) = ["ALPHA"]
      /\ Search.containsCI "ALPHA" "A_P" = false
      /\ allContain "A_P" (Search.rows (Search.view answered)) = false)
  /\ (Search.issued st2 = [companyQuery "alp"; companyQuery ""]
      /\ Search.searchTerm (Search.view st2) = "alp"
      /\ noPatternChars "alp" = true
      /\ map Search.nameOf (Search.rows (Search.view st2)) = ["ALBA"; "ALPHA"]
      /\ Search.containsCI "ALBA" "alp" = false
      /\ allContain "alp" (Search.rows (Search.view st2)) = false).
Proof. repeat split. Qed.

(** ** Responses of superseded queries *)








(* ===================================================================== *)
(** * Further properties of the pages *)
(* ===================================================================== *)

(** ** Trimming *)

Lemma trimEnd_idempotent (s : string) :
  JS.trimEnd (JS.trimEnd s) = JS.trimEnd s.
Proof.
  induction s as [|c s IH]; [reflexivity|].
  cbn [JS.trimEnd].
  destruct (JS.isWhiteSpace c && JS.isEmpty (JS.trimEnd s)) eqn:E;
    [reflexivity|].
  cbn [JS.trimEnd]. now rewrite IH, E.
Qed.

Lemma trimStart_clean (s : string) : startsClean (JS.trimStart s).
Proof.
  induction s as [|c s IH]; [exact I|].
  cbn [JS.trimStart]. destruct (JS.isWhiteSpace c) eqn:E; [exact IH | exact E].
Qed.

Lemma trimStart_of_clean (s : string) :
  startsClean s -> JS.trimStart s = s.
Proof. destruct s as [|c s]; simpl; [reflexivity|]. now intros ->. Qed.

Lemma trimEnd_clean (s : string) :
  startsClean s -> startsClean (JS.trimEnd s).
Proof.
  destruct s as [|c s]; [exact (fun H => H)|].
  cbn [startsClean JS.trimEnd]. intro H. rewrite H. exact H.
Qed.

Lemma trim_idempotent (s : string) : JS.trim (JS.trim s) = JS.trim s.
Proof.
  unfold JS.trim.
  rewrite (trimStart_of_clean (JS.trimEnd (JS.trimStart s))).
  - apply trimEnd_idempotent.
  - apply trimEnd_clean, trimStart_clean.
Qed.

Lemma trim_isTrimmed (s : string) : isTrimmed (JS.trim s) = true.
Proof. unfold isTrimmed. rewrite trim_idempotent. apply String.eqb_refl. Qed.

(** ** The submit handlers, page by page *)

(** Case analysis along the branches of a submit handler. *)
Ltac branch :=
  repeat match goal with
         | |- context [match ?x with _ => _ end] => destruct x eqn:?
         end.

Ltac open_submit :=
  cbn [submit];
  unfold CompanyList.handleSubmit, CountryList.handleSubmit,
    LineTypeList.handleSubmit, CityList.handleSubmit,
    DistrictList.handleSubmit, NameForm.handleSubmit,
    ScopedForm.handleSubmit, LineList.handleSubmit, KpiList.handleSubmit,
    MachineList.handleSubmit, MachineList.validateForm, onPage.

(** X1.  Without a signed-in user a submit sends nothing on any of the
    eight pages, shows "You must be logged in to perform this action" and
    leaves the dialog as it was; with a user, every insert carries that
    user's id as [created_by] and every update as [updated_by]. *)
Theorem submit_signed (gw : Gateway.Backend) (user : option User)
  (p : Page) :
  let o := submit gw user p in
  match user with
  | Some u => forallb (signedBy u) (requests o) = true
  | None =>
      requests o = []
      /\ pageError (state o)
         = Some "You must be logged in to perform this action"
      /\ input (state o) = input p
  end.
Proof.
  destruct p, user as [u|]; open_submit; cbv zeta;
    try (repeat split; reflexivity);
    branch; cbn; rewrite ?String.eqb_refl; reflexivity.
Qed.

(** X2.  On every page all requests of a submit go to the page's own
    table, and a write fits the dialog's mode: while a row is edited it is
    an update of exactly that row, otherwise it is an insert. *)
Theorem submit_targets (gw : Gateway.Backend) (user : option User)
  (p : Page) :
  forallb (fun r => String.eqb (requestTable r) (pageTable p)
                    && implb (isWrite r) (matchesMode (editedId p) r))
          (requests (submit gw user p)) = true.
Proof.
  destruct p; open_submit; cbn [editedId pageTable option_map];
    unfold option_map; branch; cbn; rewrite ?String.eqb_refl; reflexivity.
Qed.

(** X3.  A submit sends at most one insert or update, and nothing after
    it.  On the machine page the write is the only request.  On the other
    seven pages it comes second, after the pre-check, and only when the
    pre-check returned no row; when the pre-check returned a row it is the
    only request. *)
Theorem submit_shape (gw : Gateway.Backend) (user : option User)
  (p : Page) :
  let l := requests (submit gw user p) in
  match p with
  | OnMachine _ => l = [] \/ exists w, l = [w] /\ isWrite w = true
  | _ =>
      l = []
      \/ (exists q, l = [q] /\ isSelect q = true
                    /\ Gateway.maybeSingle (gw q) <> None)
      \/ (exists q w, l = [q; w] /\ isSelect q = true
                      /\ Gateway.maybeSingle (gw q) = None
                      /\ isWrite w = true)
  end.
Proof.
  destruct p; open_submit; cbv zeta; branch;
    cbn [requests CompanyList.labels CountryList.labels LineTypeList.labels
         CityList.labels DistrictList.labels NameForm.table
         ScopedForm.table ScopedForm.parentColumn] in *;
    try (left; reflexivity);
    try (right; left; eexists; repeat split; congruence);
    try (right; right; eexists; eexists; repeat split; assumption);
    try (right; eexists; split; reflexivity).
Qed.

(** X4.  A submit that asks for the list to be refreshed has sent a write
    that the backend accepted; the page then shows a success message and
    no error, and its dialog is closed with an empty form and no edited
    row. *)
Theorem submit_success (gw : Gateway.Backend) (user : option User)
  (p : Page) :
  let o := submit gw user p in
  refresh o = true ->
  input (state o) = blank p
  /\ pageError (state o) = None
  /\ pageSuccess (state o) <> None
  /\ exists w, In w (requests o) /\ isWrite w = true
               /\ Gateway.writeError (gw w) = None.
Proof.
  destruct p; open_submit; cbv zeta; branch;
    cbn [refresh]; intro H; try discriminate H;
    (split; [reflexivity|]); (split; [reflexivity|]);
    (split; [discriminate|]);
    eexists; (split; [cbn; eauto|]); (split; [reflexivity|]); assumption.
Qed.

Lemma submit_success_witness :
  let o := submit emptyBackend (Some {| user_id := "u1" |})
             (OnCity (scopedDialog "SPRINGFIELD" "us")) in
  input (state o) = blank (OnCity (scopedDialog "SPRINGFIELD" "us"))
  /\ pageSuccess (state o) <> None.
Proof.
  destruct (submit_success emptyBackend (Some {| user_id := "u1" |})
              (OnCity (scopedDialog "SPRINGFIELD" "us")) eq_refl)
    as (H1 & _ & H3 & _).
  split; assumption.
Defined.

Lemma machine_feedback (st : MachineList.State) :
  negb (MachineList.isNone (MachineList.v_name (MachineList.formErrors st))
        && MachineList.isNone (MachineList.v_order (MachineList.formErrors st))
        && MachineList.isNone (MachineList.v_line (MachineList.formErrors st)))
  = true ->
  feedback (OnMachine (MachineList.setValidationErrors
                         (MachineList.formErrors st) st)) = true.
Proof.
  cbn [feedback MachineList.setValidationErrors MachineList.error
       MachineList.validationErrors].
  destruct (MachineList.isNone (MachineList.error st)),
    (MachineList.isNone (MachineList.v_name _)),
    (MachineList.isNone (MachineList.v_order _)),
    (MachineList.isNone (MachineList.v_line _)); cbn; congruence.
Qed.

(** X5.  A submit that does not end in a refresh (refused by a check, by
    the pre-check, or by the backend) leaves the dialog's mode, the edited
    row, the form as entered and the success banner untouched, and always
    shows an error: the banner or, on the machine page, a field error. *)
Theorem submit_failure (gw : Gateway.Backend) (user : option User)
  (p : Page) :
  let o := submit gw user p in
  refresh o = false ->
  input (state o) = input p
  /\ pageSuccess (state o) = pageSuccess p
  /\ feedback (state o) = true.
Proof.
  destruct p; open_submit; cbv zeta;
    try (branch; cbn [refresh]; intro H; try discriminate H;
         repeat split; reflexivity).
  destruct user as [u|]; [|intros _; repeat split; reflexivity].
  destruct (negb _) eqn:Hbad.
  - intros _. split; [reflexivity|]. split; [reflexivity|].
    now apply machine_feedback.
  - branch; cbn [refresh]; intro H; try discriminate H;
      (split; [reflexivity|]); (split; [reflexivity|]);
      cbn [feedback state MachineList.setValidationErrors
           MachineList.setError MachineList.error MachineList.withOrder
           MachineList.validationErrors MachineList.v_order
           MachineList.isNone negb];
      rewrite ?orb_true_r; reflexivity.
Qed.

Lemma submit_failure_witness :
  let p := OnCompany (nameDialog "ACME-1") in
  let o := submit emptyBackend (Some {| user_id := "u1" |}) p in
  input (state o) = input p /\ feedback (state o) = true.
Proof.
  intros p o.
  destruct (submit_failure emptyBackend (Some {| user_id := "u1" |}) p
              eq_refl) as (H1 & _ & H3).
  split; assumption.
Defined.

(** X6.  On all eight pages the name an insert or update stores has no
    white space at either end: it is the form's name, trimmed. *)
Theorem stored_names_trimmed (gw : Gateway.Backend) (user : option User)
  (p : Page) :
  storedNamesOk isTrimmed (requests (submit gw user p)) = true.
Proof.
  destruct p; open_submit; branch; cbn; rewrite ?trim_isTrimmed;
    reflexivity.
Qed.

Ltac use_false :=
  repeat match goal with
         | H : _ || _ = false |- _ =>
             apply orb_false_iff in H; destruct H
         end;
  repeat match goal with
         | H : ?x = false |- context [?x] => rewrite H
         end.

(** X7.  Every insert or update carries a non-empty value in each column
    its page requires: the country of a city, the city of a district, the
    company, district and line type of a line, the name and unit of a KPI,
    the name and line of a machine.  (The company, country and line type
    pages require nothing, the name included.) *)
Theorem writes_fill_required (gw : Gateway.Backend) (user : option User)
  (p : Page) :
  forallb (fun r => implb (isWrite r)
                          (forallb (fun c => filled c r) (requiredColumns p)))
          (requests (submit gw user p)) = true.
Proof.
  destruct p; open_submit; cbn [requiredColumns];
    try (branch; reflexivity).
  - (* city *) branch; cbn; use_false; reflexivity.
  - (* district *) branch; cbn; use_false; reflexivity.
  - (* line *) branch; cbn; use_false; reflexivity.
  - (* KPI *) branch; cbn; use_false; reflexivity.
  - (* machine *)
    destruct user as [u|]; [|reflexivity].
    unfold MachineList.formErrors. cbn [MachineList.v_name MachineList.v_line
                                        MachineList.v_order].
    destruct (JS.isEmpty (JS.trim _)) eqn:En; [reflexivity|].
    destruct (negb (MachineList.validateMachineName _)); [reflexivity|].
    destruct (JS.isEmpty (MachineList.f_line_id _)) eqn:El;
      [cbn; now rewrite andb_false_r|].
    branch; cbn; rewrite ?En, ?El; reflexivity.
Qed.

(** X8.  Every insert or update of a machine carries a name made of
    uppercase letters, digits, white space and hyphens and an order from
    1000 to 9999 that is not among the orders fetched for the line, unless
    it is the edited machine's own order. *)
Theorem machine_write_valid (gw : Gateway.Backend) (user : option User)
  (st : MachineList.State) :
  forallb (fun r => implb (isWrite r) (machineWriteOk st r))
          (requests (MachineList.handleSubmit gw user st)) = true.
Proof.
  unfold MachineList.handleSubmit, MachineList.validateForm.
  destruct user as [u|]; [|reflexivity].
  rewrite formErrors_order.
  unfold MachineList.formErrors. cbn [MachineList.v_name MachineList.v_line].
  destruct (JS.isEmpty (JS.trim _)); [reflexivity|].
  destruct (MachineList.validateMachineName _) eqn:Hv; [|reflexivity].
  cbn [negb MachineList.isNone andb].
  unfold orderError.
  set (k := MachineList.f_order (MachineList.formData st)).
  destruct ((k <? 1000) || (k >? 9999)) eqn:Hr; [reflexivity|].
  destruct (MachineList.includes _ k && MachineList.notOwnOrder k _) eqn:Hu;
    [reflexivity|].
  cbn [MachineList.isNone andb].
  destruct (JS.isEmpty (MachineList.f_line_id _)); [reflexivity|].
  cbn [MachineList.isNone negb].
  apply orb_false_iff in Hr as [Hlo Hhi].
  assert (Hin : (1000 <=? k) && (k <=? 9999) = true).
  { apply andb_true_iff. split; apply Z.leb_le.
    - apply Z.ltb_ge in Hlo. lia.
    - rewrite Z.gtb_ltb in Hhi. apply Z.ltb_ge in Hhi. lia. }
  assert (Hn : Regex.lettersDigitsSpacesHyphen
                 (JS.trim (MachineList.f_name (MachineList.formData st)))
               = true) by (apply all_trim; exact Hv).
  assert (Hok : forall f i,
             Gateway.get "name" f
             = Gateway.VStr (JS.trim (MachineList.f_name
                                        (MachineList.formData st))) ->
             Gateway.get "order" f = Gateway.VNum k ->
             machineWriteOk st (Gateway.Update "machine" f i) = true
             /\ machineWriteOk st (Gateway.Insert "machine" f) = true).
  { intros f i H1 H2. unfold machineWriteOk. cbn [written].
    apply andb_true_iff in Hin as [Ha Hb].
    rewrite H1, H2, Hn, Hu, Ha, Hb. split; reflexivity. }
  destruct (MachineList.editingMachine st) as [m|];
    destruct (Gateway.writeError _) as [e|];
    try destruct (MachineList.isOrderConflict e);
    cbn [requests forallb isWrite implb]; rewrite ?andb_true_r;
    try reflexivity;
    first [ refine (proj1 (Hok _ _ _ _)) | refine (proj2 (Hok _ "" _ _)) ];
    reflexivity.
Qed.

(** ** Typing a name *)

Lemma all_append (p : ascii -> bool) (a b : string) :
  JS.all p (String.append a b) = JS.all p a && JS.all p b.
Proof.
  induction a as [|c a IH]; [reflexivity|].
  cbn [String.append JS.all]. now rewrite IH, andb_assoc.
Qed.

Lemma upperChar_letters (c : ascii) :
  (JS.code c <? 128)%N = true ->
  JS.all (fun c => JS.isUpperAZ c || JS.isWhiteSpace c) (JS.upperChar c)
  = isLetter c || JS.isWhiteSpace c.
Proof.
  destruct c as [[] [] [] [] [] [] [] []]; intro H;
    first [discriminate H | reflexivity].
Qed.

Lemma upperChar_lettersDigits (c : ascii) :
  (JS.code c <? 128)%N = true ->
  JS.all (fun c => JS.isUpperAZ c || JS.isDigit c || JS.isWhiteSpace c
                   || JS.isHyphen c) (JS.upperChar c)
  = isLetter c || JS.isDigit c || JS.isWhiteSpace c || JS.isHyphen c.
Proof.
  destruct c as [[] [] [] [] [] [] [] []]; intro H;
    first [discriminate H | reflexivity].
Qed.

Lemma upperChar_notLower (c : ascii) :
  JS.all (fun c => negb (JS.isLowerAZ c)) (JS.upperChar c) = true.
Proof. destruct c as [[] [] [] [] [] [] [] []]; reflexivity. Qed.

Lemma all_toUpperCase (p q : ascii -> bool) (s : string) :
  isAscii s = true ->
  (forall c, (JS.code c <? 128)%N = true -> JS.all p (JS.upperChar c) = q c) ->
  JS.all p (JS.toUpperCase s) = JS.all q s.
Proof.
  intros Ha H. induction s as [|c s IH]; [reflexivity|].
  cbn [JS.toUpperCase JS.all]. rewrite all_append.
  unfold isAscii in Ha. cbn [JS.all] in Ha.
  apply andb_true_iff in Ha as [Hc Hs].
  now rewrite (H c Hc), (IH Hs).
Qed.

Lemma lettersSpaces_typed (v : string) :
  isAscii v = true ->
  Regex.lettersSpaces (JS.toUpperCase v) = lettersOrSpace v.
Proof. intro H. apply all_toUpperCase; [exact H | apply upperChar_letters]. Qed.

Lemma lettersDigits_typed (v : string) :
  isAscii v = true ->
  Regex.lettersDigitsSpacesHyphen (JS.toUpperCase v) = lettersDigitsOrSpace v.
Proof.
  intro H. apply all_toUpperCase; [exact H | apply upperChar_lettersDigits].
Qed.

Lemma toUpperCase_noLowercase (v : string) :
  noLowercase (JS.toUpperCase v) = true.
Proof.
  unfold noLowercase. induction v as [|c v IH]; [reflexivity|].
  cbn [JS.toUpperCase]. now rewrite all_append, upperChar_notLower, IH.
Qed.

(** X9.  A value typed into a name field (plain ASCII) is stored in the
    form uppercased, with no lowercase letter left.  On the company,
    country, line type, city and district pages it raises no error exactly
    when it consists of letters of either case and white space; on the
    line and machine pages exactly when it consists of letters, digits,
    white space and hyphens.  So lowercase letters are never the reason
    for an error. *)
Theorem typed_name_accepted (v : string) :
  isAscii v = true ->
  (forall st : NameForm.State,
     let st' := NameForm.handleNameChange v st in
     NameForm.f_name (Dialog.formData st') = JS.toUpperCase v
     /\ noLowercase (NameForm.f_name (Dialog.formData st')) = true
     /\ MachineList.isNone (Dialog.error st') = lettersOrSpace v)
  /\ (forall st : ScopedForm.State,
        let st' := ScopedForm.handleNameChange v st in
        ScopedForm.f_name (Dialog.formData st') = JS.toUpperCase v
        /\ ScopedForm.f_parent_id (Dialog.formData st')
           = ScopedForm.f_parent_id (Dialog.formData st)
        /\ MachineList.isNone (Dialog.error st') = lettersOrSpace v)
  /\ (forall st : LineList.State,
        let st' := LineList.handleNameChange v st in
        LineList.f_name (Dialog.formData st') = JS.toUpperCase v
        /\ MachineList.isNone (Dialog.error st') = lettersDigitsOrSpace v)
  /\ (forall st : MachineList.State,
        let st' := MachineList.handleNameChange v st in
        MachineList.f_name (MachineList.formData st') = JS.toUpperCase v
        /\ MachineList.isNone
             (MachineList.v_name (MachineList.validationErrors st'))
           = lettersDigitsOrSpace v
        /\ MachineList.error st' = MachineList.error st).
Proof.
  intros Ha. split; [|split; [|split]]; intros st st'; subst st'.
  - unfold NameForm.handleNameChange, NameForm.validateName.
    rewrite (lettersSpaces_typed v Ha).
    destruct (lettersOrSpace v); cbn; rewrite toUpperCase_noLowercase;
      repeat split.
  - unfold ScopedForm.handleNameChange, ScopedForm.validateName.
    rewrite (lettersSpaces_typed v Ha).
    destruct (lettersOrSpace v); cbn; repeat split.
  - unfold LineList.handleNameChange, LineList.validateLineName.
    rewrite (lettersDigits_typed v Ha).
    destruct (lettersDigitsOrSpace v); cbn; repeat split.
  - unfold MachineList.handleNameChange, MachineList.validateMachineName.
    rewrite (lettersDigits_typed v Ha).
    destruct (lettersDigitsOrSpace v); cbn; repeat split.
Qed.

Lemma typed_name_accepted_witness :
  let st' := NameForm.handleNameChange "New York" (nameDialog "") in
  NameForm.f_name (Dialog.formData st') = "NEW YORK"
  /\ MachineList.isNone (Dialog.error st') = true.
Proof.
  destruct (proj1 (typed_name_accepted "New York" eq_refl) (nameDialog ""))
    as (H1 & _ & H3).
  split; [exact H1 | exact H3].
Defined.

(** ** The order proposed for a new machine *)

Lemma nextFree_bounds (fuel : nat) (orders : list Z) (n : Z) :
  n <= MachineList.nextFree fuel orders n <= n + Z.of_nat fuel.
Proof.
  revert n. induction fuel as [|fuel IH]; intro n.
  - cbn. lia.
  - cbn [MachineList.nextFree].
    destruct (MachineList.includes orders n); [|lia].
    specialize (IH (n + 1)). lia.
Qed.

Lemma nextFree_passed (fuel : nat) (orders : list Z) (n k : Z) :
  n <= k < MachineList.nextFree fuel orders n -> In k orders.
Proof.
  revert n. induction fuel as [|fuel IH]; intro n.
  - cbn. lia.
  - cbn [MachineList.nextFree].
    destruct (MachineList.includes orders n) eqn:E; [|lia].
    intro H. destruct (Z.eq_dec k n) as [->|Hne].
    + now apply includes_In.
    + apply (IH (n + 1)). lia.
Qed.

(** X10.  When a line is chosen in the Add dialog and its orders are
    fetched, the form's order becomes the smallest number from 1000 up
    that no machine of the line uses: it is not among the fetched orders,
    every number from 1000 below it is, and it exceeds 1000 by at most the
    number of fetched orders.  The fetched orders become the ones later
    checks compare with; name and line of the form are not touched. *)
Theorem fetch_proposes_least_free (gw : Gateway.Backend) (lineId : string)
  (rows : list Gateway.Row) (st : MachineList.State) :
  JS.isEmpty lineId = false ->
  gw (Gateway.SelectOrders lineId) = Gateway.Matching rows ->
  let st' := MachineList.fetchExistingOrders gw None lineId st in
  let n := MachineList.f_order (MachineList.formData st') in
  let orders := MachineList.ordersOf rows in
  MachineList.existingOrders st' = orders
  /\ 1000 <= n <= 1000 + Z.of_nat (length orders)
  /\ ~ In n orders
  /\ (forall k, 1000 <= k < n -> In k orders)
  /\ MachineList.f_name (MachineList.formData st')
     = MachineList.f_name (MachineList.formData st)
  /\ MachineList.f_line_id (MachineList.formData st')
     = MachineList.f_line_id (MachineList.formData st).
Proof.
  intros Hne Hgw st' n orders. subst st' n.
  unfold MachineList.fetchExistingOrders. rewrite Hne, Hgw.
  cbn [MachineList.setFormData MachineList.setExistingOrders
       MachineList.formData MachineList.existingOrders MachineList.f_order
       MachineList.f_name MachineList.f_line_id].
  fold orders.
  split; [reflexivity|]. split; [|split; [|split; [|split; reflexivity]]].
  - pose proof (nextFree_bounds (S (length orders)) orders 1000) as H.
    pose proof (nextFree_not_used orders) as Hfree.
    split; [lia|].
    destruct (Z.eq_dec (MachineList.nextFree (S (length orders)) orders 1000)
                (1000 + Z.of_nat (S (length orders)))) as [E|E]; [|lia].
    exfalso.
    assert (Hall : forall k, (k < S (length orders))%nat ->
                             In (1000 + Z.of_nat k) orders).
    { intros k Hk. apply (nextFree_passed (S (length orders)) orders 1000).
      rewrite E. lia. }
    set (l := map (fun k => 1000 + Z.of_nat k) (seq 0 (S (length orders)))).
    assert (Hnd : NoDup l).
    { apply Injective_map_NoDup; [|apply seq_NoDup]. intros a b Hab. lia. }
    assert (Hincl : incl l orders).
    { intros x Hx. apply in_map_iff in Hx as (k & <- & Hk).
      apply in_seq in Hk. apply Hall. lia. }
    pose proof (NoDup_incl_length Hnd Hincl) as Hlen.
    unfold l in Hlen. rewrite length_map, length_seq in Hlen. lia.
  - intro Hin. apply includes_In in Hin.
    now rewrite nextFree_not_used in Hin.
  - apply nextFree_passed.
Qed.

Lemma fetch_proposes_least_free_witness :
  let st' := MachineList.fetchExistingOrders
               (Gateway.serve threeMachines (fun _ => None)) None "line-1"
               blankMachineForm in
  MachineList.existingOrders st' = [1000; 1001; 1003]
  /\ ~ In (MachineList.f_order (MachineList.formData st')) [1000; 1001; 1003].
Proof.
  destruct (fetch_proposes_least_free
              (Gateway.serve threeMachines (fun _ => None)) "line-1"
              threeMachines blankMachineForm eq_refl eq_refl)
    as (H1 & _ & H3 & _).
  split; [exact H1 | exact H3].
Defined.

(** X11.  After a line is chosen in the Add Machine dialog and its orders
    are fetched, the form's line and the proposed order pass the checks of
    a submit: no line error, never the order-in-use error, and no order
    error at all as long as the line has fewer than 9000 machines. *)
Theorem line_choice_passes_validation (gw : Gateway.Backend)
  (lineId : string) (rows : list Gateway.Row) (st : MachineList.State) :
  MachineList.editingMachine st = None ->
  JS.isEmpty lineId = false ->
  gw (Gateway.SelectOrders lineId) = Gateway.Matching rows ->
  let st' := MachineList.handleLineChange gw lineId st in
  MachineList.f_line_id (MachineList.formData st') = lineId
  /\ MachineList.v_line (MachineList.formErrors st') = None
  /\ MachineList.v_order (MachineList.formErrors st')
     <> Some MachineList.orderUsedMsg
  /\ (Z.of_nat (length (MachineList.ordersOf rows)) < 9000 ->
      MachineList.v_order (MachineList.formErrors st') = None).
Proof.
  intros Hed Hne Hgw st'. subst st'. unfold MachineList.handleLineChange.
  rewrite Hed.
  set (st2 := MachineList.setValidationErrors _ _).
  destruct (fetch_proposes_least_free gw lineId rows st2 Hne Hgw)
    as (Horders & Hrange & Hfree & _ & _ & Hline).
  set (st' := MachineList.fetchExistingOrders gw None lineId st2) in *.
  assert (Hl : MachineList.f_line_id (MachineList.formData st') = lineId)
    by (rewrite Hline; reflexivity).
  assert (Hed' : MachineList.editingMachine st' = None).
  { unfold st', MachineList.fetchExistingOrders. rewrite Hne, Hgw.
    cbn. exact Hed. }
  assert (Hinc : MachineList.includes (MachineList.existingOrders st')
                   (MachineList.f_order (MachineList.formData st')) = false).
  { rewrite Horders.
    destruct (MachineList.includes _ _) eqn:E; [|reflexivity].
    apply includes_In in E. contradiction. }
  split; [exact Hl|]. split; [|split].
  - unfold MachineList.formErrors. cbn [MachineList.v_line].
    now rewrite Hl, Hne.
  - rewrite formErrors_order. unfold orderError. rewrite Hinc.
    destruct (_ || _); discriminate.
  - intro Hfew. rewrite formErrors_order. unfold orderError. rewrite Hinc.
    replace ((MachineList.f_order (MachineList.formData st') <? 1000)
             || (MachineList.f_order (MachineList.formData st') >? 9999))
      with false; [reflexivity|].
    symmetry. apply orb_false_iff. split.
    + apply Z.ltb_ge. lia.
    + rewrite Z.gtb_ltb. apply Z.ltb_ge. lia.
Qed.

Lemma line_choice_passes_validation_witness :
  let st' := MachineList.handleLineChange
               (Gateway.serve threeMachines (fun _ => None)) "line-1"
               blankMachineForm in
  MachineList.f_order (MachineList.formData st') = 1002
  /\ MachineList.v_order (MachineList.formErrors st') = None.
Proof.
  intro st'.
  destruct (line_choice_passes_validation
              (Gateway.serve threeMachines (fun _ => None)) "line-1"
              threeMachines blankMachineForm eq_refl eq_refl eq_refl)
    as (_ & _ & _ & H).
  split; [reflexivity | apply H; cbn; lia].
Defined.

(** ** Opening the edit dialog of a machine *)

(** X12.  [handleEdit] fills the form with the machine's name and line,
    marks the machine as edited, opens the dialog and fetches the orders of
    its line.  The fetch it starts still sees the [editingMachine] of the
    render in which Edit was clicked: when no machine was being edited
    then, the fetch finishes by putting the next free order into the form,
    so the form does not show the machine's own order (which is among the
    fetched ones) but one no machine of the line uses; when a machine was
    already being edited, the form keeps the machine's order. *)
Theorem edit_machine_order (gw : Gateway.Backend)
  (m : MachineList.Machine) (rows : list Gateway.Row)
  (st : MachineList.State) :
  JS.isEmpty (MachineList.line_id m) = false ->
  gw (Gateway.SelectOrders (MachineList.line_id m)) = Gateway.Matching rows ->
  let st' := MachineList.handleEdit gw m st in
  let n := MachineList.f_order (MachineList.formData st') in
  MachineList.editingMachine st' = Some m
  /\ MachineList.openDialog st' = true
  /\ MachineList.f_name (MachineList.formData st') = MachineList.name m
  /\ MachineList.f_line_id (MachineList.formData st') = MachineList.line_id m
  /\ MachineList.existingOrders st' = MachineList.ordersOf rows
  /\ (MachineList.editingMachine st = None ->
      ~ In n (MachineList.ordersOf rows)
      /\ (In (MachineList.order m) (MachineList.ordersOf rows) ->
          n <> MachineList.order m))
  /\ (MachineList.editingMachine st <> None -> n = MachineList.order m).
Proof.
  intros Hne Hgw st' n. subst n st'. unfold MachineList.handleEdit.
  set (st1 := {| MachineList.error := None |}).
  destruct (MachineList.editingMachine st) as [old|] eqn:Hed.
  - unfold MachineList.fetchExistingOrders. rewrite Hne, Hgw. cbn.
    split; [reflexivity|]. split; [reflexivity|]. split; [reflexivity|].
    split; [reflexivity|]. split; [reflexivity|].
    split; [discriminate | reflexivity].
  - destruct (fetch_proposes_least_free gw (MachineList.line_id m) rows st1
                Hne Hgw) as (Ho & _ & Hfree & _ & Hname & Hline).
    split; [|split; [|split; [|split; [|split; [|split]]]]];
      try assumption.
    + unfold MachineList.fetchExistingOrders. rewrite Hne, Hgw. reflexivity.
    + unfold MachineList.fetchExistingOrders. rewrite Hne, Hgw. reflexivity.
    + intros _. split; [exact Hfree|]. intros Hin E. apply Hfree.
      now rewrite E.
    + intro H. now contradiction H.
Qed.

Lemma edit_machine_order_witness :
  let st' := MachineList.handleEdit
               (Gateway.serve threeMachines (fun _ => None)) lathe
               blankMachineForm in
  MachineList.editingMachine st' = Some lathe
  /\ MachineList.f_order (MachineList.formData st') = 1002
  /\ MachineList.order lathe = 1001.
Proof.
  intro st'.
  destruct (edit_machine_order
              (Gateway.serve threeMachines (fun _ => None)) lathe
              threeMachines blankMachineForm eq_refl eq_refl)
    as (H1 & _).
  split; [exact H1 | split; reflexivity].
Defined.

(** ** Checks while typing and checks at submit *)

Lemma trimEnd_empty (s : string) :
  JS.trimEnd s = "" -> JS.all JS.isWhiteSpace s = true.
Proof.
  induction s as [|c s IH]; [reflexivity|].
  cbn [JS.trimEnd JS.all].
  destruct (JS.isWhiteSpace c); [|discriminate].
  destruct (JS.trimEnd s); [|discriminate].
  intros _. now rewrite IH.
Qed.

Lemma trim_empty (s : string) :
  JS.trim s = "" -> JS.all JS.isWhiteSpace s = true.
Proof.
  unfold JS.trim. induction s as [|c s IH]; [reflexivity|].
  cbn [JS.trimStart JS.all].
  destruct (JS.isWhiteSpace c) eqn:E; [exact IH|].
  cbn [JS.trimEnd]. rewrite E. discriminate.
Qed.

Lemma whitespace_lettersDigits (s : string) :
  JS.all JS.isWhiteSpace s = true ->
  Regex.lettersDigitsSpacesHyphen s = true.
Proof.
  unfold Regex.lettersDigitsSpacesHyphen.
  induction s as [|c s IH]; simpl; intro H; [reflexivity|].
  apply andb_true_iff in H as [Hc Hs].
  rewrite Hc, IH by assumption.
  now rewrite !orb_true_r.
Qed.

Lemma handleOrderChange_keeps (value : string) (st : MachineList.State) :
  MachineList.existingOrders (MachineList.handleOrderChange value st)
  = MachineList.existingOrders st
  /\ MachineList.editingMachine (MachineList.handleOrderChange value st)
     = MachineList.editingMachine st.
Proof.
  unfold MachineList.handleOrderChange.
  destruct (_ || _); [split; reflexivity|].
  cbn [MachineList.existingOrders MachineList.editingMachine
       MachineList.setFormData].
  destruct (_ && _); split; reflexivity.
Qed.

(** X13.  On the machine form the error shown under the order field
    while typing is the one a submit would compute for the same form, and
    so is the error under the name field unless the name is blank: a blank
    name shows no error while typing and "Machine name is required" at
    submit. *)
Theorem machine_eager_checks (st : MachineList.State) (value : string) :
  (let st' := MachineList.handleOrderChange value st in
   MachineList.v_order (MachineList.validationErrors st')
   = MachineList.v_order (MachineList.formErrors st'))
  /\ (let st' := MachineList.handleNameChange value st in
      (JS.isEmpty (JS.trim (JS.toUpperCase value)) = false ->
       MachineList.v_name (MachineList.validationErrors st')
       = MachineList.v_name (MachineList.formErrors st'))
      /\ (JS.isEmpty (JS.trim (JS.toUpperCase value)) = true ->
          MachineList.v_name (MachineList.validationErrors st') = None
          /\ MachineList.v_name (MachineList.formErrors st')
             = Some "Machine name is required")).
Proof.
  split.
  - destruct (handleOrderChange_order value st) as [Ho Hv].
    destruct (handleOrderChange_keeps value st) as [Ke Km]. cbv zeta.
    rewrite Hv, formErrors_order, Ho. unfold orderError.
    now rewrite Ke, Km.
  - cbv zeta. unfold MachineList.handleNameChange.
    split.
    + intro Hne.
      destruct (negb (MachineList.validateMachineName _)) eqn:E;
        unfold MachineList.formErrors;
        cbn [MachineList.v_name MachineList.validationErrors
             MachineList.setValidationErrors MachineList.withName
             MachineList.formData MachineList.setFormData
             MachineList.f_name];
        now rewrite Hne, E.
    + intro He.
      assert (Hws : JS.all JS.isWhiteSpace (JS.toUpperCase value) = true).
      { apply trim_empty. destruct (JS.trim _); [reflexivity|discriminate]. }
      unfold MachineList.validateMachineName.
      rewrite (whitespace_lettersDigits _ Hws). cbn [negb].
      unfold MachineList.formErrors.
      cbn [MachineList.v_name MachineList.validationErrors
           MachineList.setValidationErrors MachineList.withName
           MachineList.formData MachineList.setFormData MachineList.f_name].
      now rewrite He.
Qed.

Lemma machine_eager_checks_witness :
  let st' := MachineList.handleNameChange "  " blankMachineForm in
  MachineList.v_name (MachineList.validationErrors st') = None
  /\ MachineList.v_name (MachineList.formErrors st')
     = Some "Machine name is required".
Proof.
  exact (proj2 (proj2 (machine_eager_checks blankMachineForm "  "))
           eq_refl).
Defined.

(** ** Sorting, paging and typing in the list *)

Lemma view_render (v : Search.View) (st : Search.State) :
  Search.view (Search.render v st) = v.
Proof. unfold Search.render. destruct (Search.sameDeps _ _); reflexivity. Qed.

(** X14.  A click on a column header sorts by that column from the first
    page on: ascending when the list was sorted by another column, and in
    the opposite direction when it was sorted by this one.  A second click
    on the same header reverses the direction of the first, so two clicks
    on the current sort column restore its direction.  Search term and
    page size are kept. *)
Theorem sort_clicks (e : Search.Entity) (st : Search.State)
  (property : string) :
  let v := Search.view st in
  let v1 := Search.view (Search.step e st (Search.Sort property)) in
  let v2 := Search.view (Search.run e st [Search.Sort property;
                                          Search.Sort property]) in
  Search.orderBy v1 = property /\ Search.page v1 = 0
  /\ Search.orderBy v2 = property /\ Search.page v2 = 0
  /\ (Search.orderBy v <> property -> Search.order v1 = Search.asc)
  /\ Search.order v2 <> Search.order v1
  /\ (Search.orderBy v = property -> Search.order v2 = Search.order v)
  /\ Search.searchTerm v2 = Search.searchTerm v
  /\ Search.rowsPerPage v2 = Search.rowsPerPage v.
Proof.
  cbv zeta. unfold Search.run. cbn [fold_left Search.step].
  rewrite !view_render. cbn [Search.withSort Search.orderBy Search.page
                             Search.order Search.searchTerm
                             Search.rowsPerPage].
  rewrite String.eqb_refl.
  repeat split.
  - intro H. apply String.eqb_neq in H. now rewrite H.
  - destruct (String.eqb _ _ && _); discriminate.
  - intros ->. rewrite String.eqb_refl.
    destruct (Search.order (Search.view st)); reflexivity.
Qed.

Lemma sort_clicks_witness :
  let st := Search.init Search.Machine in
  Search.order (Search.view (Search.step Search.Machine st
                               (Search.Sort "name"))) = Search.asc.
Proof.
  apply (proj1 (proj2 (proj2 (proj2 (proj2
           (sort_clicks Search.Machine (Search.init Search.Machine)
                        "name")))))).
  discriminate.
Defined.

Lemma schedule_armed (v : Search.View) (st : Search.State) :
  armed (Search.schedule v st) (Search.now st + Search.wait).
Proof.
  unfold armed, Search.schedule. eexists.
  cbn [Search.timer Search.view Search.now].
  split; [reflexivity|].
  cbn [Search.captured Search.term Search.deadline].
  repeat split; lia.
Qed.

(** X15.  A change of the search box, the sort column, the page or the
    page size that alters any of them is followed after 300 ms of quiet by
    exactly one list query: the one for the state then on screen.  A page
    change asks for the rows from [newPage * rowsPerPage] on; a change of
    the page size to [n] asks for the rows 0 to [n - 1]; a sort click asks
    for the first page ordered by the clicked column. *)
Theorem control_then_query (e : Search.Entity) (st : Search.State)
  (ev : Search.Event) (d : N) :
  isControl ev = true ->
  Search.sameDeps (Search.view st) (Search.view (Search.step e st ev))
  = false ->
  (Search.wait <= d)%N ->
  let st1 := Search.step e st ev in
  let st2 := Search.step e st1 (Search.Tick d) in
  let q := Search.currentQuery e (Search.view st1) in
  Search.issued st1 = Search.issued st
  /\ Search.issued st2 = q :: Search.issued st
  /\ Search.timer st2 = None
  /\ (forall newPage, ev = Search.ChangePage newPage ->
        Gateway.l_from q = newPage * Search.rowsPerPage (Search.view st)
        /\ Gateway.l_ilike q
           = Gateway.l_ilike (Search.currentQuery e (Search.view st)))
  /\ (forall n, ev = Search.ChangeRowsPerPage n ->
        Gateway.l_from q = 0 /\ Gateway.l_to q = n - 1)
  /\ (forall property, ev = Search.Sort property ->
        Gateway.l_from q = 0 /\ Gateway.l_orderBy q = property).
Proof.
  intros Hc Hchg Hd st1 st2 q.
  assert (Harm : armed st1 (Search.now st + Search.wait)
                 /\ Search.issued st1 = Search.issued st).
  { subst st1. destruct ev as [t|pr|np|n| |dt|id r]; try discriminate Hc;
      cbn [Search.step] in *;
      rewrite view_render in Hchg; unfold Search.render;
      rewrite Hchg; (split; [apply schedule_armed | reflexivity]). }
  destruct Harm as [Harm Hi].
  destruct (tick_fires e st1 d _ Harm Hd) as (H1 & _ & H3).
  fold st2 q in H1, H3. rewrite Hi in H1.
  split; [exact Hi|]. split; [exact H1|]. split; [exact H3|].
  subst q st1.
  split; [|split].
  - intros np ->. cbn [Search.step]. rewrite view_render. split; reflexivity.
  - intros n ->. cbn [Search.step]. rewrite view_render.
    unfold Search.currentQuery, Search.searchQuery, Search.closureOf.
    cbn [Gateway.l_from Gateway.l_to Search.c_page Search.c_rowsPerPage
         Search.withRowsPerPage Search.page Search.rowsPerPage].
    split; lia.
  - intros pr ->. cbn [Search.step]. rewrite view_render. split; reflexivity.
Qed.

Lemma control_then_query_witness :
  let st := mounted Search.City usCities in
  let st2 := Search.run Search.City st
               [Search.ChangeRowsPerPage 50; Search.Tick 300] in
  Search.spinner (Search.view st) = false
  /\ exists q, Search.issued st2 = q :: Search.issued st
               /\ Gateway.l_from q = 0 /\ Gateway.l_to q = 49.
Proof.
  intros st st2. split; [reflexivity|].
  destruct (control_then_query Search.City st (Search.ChangeRowsPerPage 50)
              300 eq_refl eq_refl) as (_ & H2 & _ & _ & H5 & _).
  - discriminate.
  - eexists. split; [exact H2|]. apply (H5 50 eq_refl).
Defined.

Lemma run_app (e : Search.Entity) (st : Search.State)
  (a b : list Search.Event) :
  Search.run e st (a ++ b) = Search.run e (Search.run e st a) b.
Proof. apply fold_left_app. Qed.

(** One keystroke to a new term and a pause shorter than the wait. *)
Lemma keystroke_quiet (e : Search.Entity) (st : Search.State)
  (t : string) (gap : N) :
  Search.searchTerm (Search.view st) <> t ->
  (gap < Search.wait)%N ->
  let st' := Search.run e st [Search.SearchChange t; Search.Tick gap] in
  Search.issued st' = Search.issued st
  /\ Search.inflight st' = Search.inflight st
  /\ Search.view st' = Search.withSearch t (Search.view st)
  /\ exists lo, armed st' lo.
Proof.
  intros Hnew Hgap st'. subst st'. unfold Search.run. cbn [fold_left].
  destruct (searchChange_new e st t Hnew) as (A1 & N1 & I1 & F1 & V1).
  set (s1 := Search.step e st (Search.SearchChange t)) in *.
  destruct (tick_quiet e s1 gap _ A1) as (A2 & N2 & I2 & F2 & V2);
    [rewrite N1; lia|].
  rewrite I2, F2, V2, I1, F1, V1. repeat split. eexists. exact A2.
Qed.

Lemma rapid_typing (e : Search.Entity) (keys : list (string * N)) :
  forall st,
    keys <> [] ->
    rapid (Search.searchTerm (Search.view st)) keys ->
    let st' := Search.run e st (typing keys) in
    Search.issued st' = Search.issued st
    /\ Search.inflight st' = Search.inflight st
    /\ Search.searchTerm (Search.view st')
       = lastTerm (Search.searchTerm (Search.view st)) keys
    /\ Search.closureOf (Search.view st') = firstPage (Search.view st)
    /\ exists lo, armed st' lo.
Proof.
  induction keys as [|[t gap] keys IH]; intros st Hne Hr; [contradiction|].
  cbn [rapid fst snd] in Hr. destruct Hr as (Hnew & Hgap & Hrest).
  cbn [typing flat_map fst snd]. cbv zeta.
  change ([Search.SearchChange t; Search.Tick gap] ++ flat_map _ keys)
    with ([Search.SearchChange t; Search.Tick gap] ++ typing keys).
  rewrite run_app.
  destruct (keystroke_quiet e st t gap Hnew Hgap) as (I1 & F1 & V1 & A1).
  set (s1 := Search.run e st [Search.SearchChange t; Search.Tick gap]) in *.
  destruct keys as [|k keys'].
  - cbn [typing flat_map Search.run fold_left lastTerm fst].
    rewrite V1. repeat split; assumption.
  - assert (Hr1 : rapid (Search.searchTerm (Search.view s1)) (k :: keys'))
      by (rewrite V1; exact Hrest).
    destruct (IH s1 ltac:(discriminate) Hr1) as (I2 & F2 & T2 & C2 & A2).
    rewrite I2, F2, T2, C2, I1, F1, V1. repeat split. exact A2.
Qed.

(** X16.  However long the typing lasts: while every keystroke changes
    the search term and comes less than 300 ms after the one before, no
    query is sent and none in flight is touched; once 300 ms pass without
    a keystroke, exactly one query is sent, the first-page query for the
    term typed last. *)
Theorem typing_sends_one_query (e : Search.Entity) (st : Search.State)
  (keys : list (string * N)) (d : N) :
  keys <> [] ->
  rapid (Search.searchTerm (Search.view st)) keys ->
  (Search.wait <= d)%N ->
  let st' := Search.run e st (typing keys) in
  Search.issued st' = Search.issued st
  /\ Search.inflight st' = Search.inflight st
  /\ Search.issued (Search.step e st' (Search.Tick d))
     = Search.searchQuery e (firstPage (Search.view st))
         (lastTerm (Search.searchTerm (Search.view st)) keys)
       :: Search.issued st.
Proof.
  intros Hne Hr Hd st'.
  destruct (rapid_typing e keys st Hne Hr) as (I & F & T & C & lo & A).
  fold st' in I, F, T, C, A.
  split; [exact I|]. split; [exact F|].
  destruct (tick_fires e st' d lo A Hd) as (H & _).
  rewrite H, I. unfold Search.currentQuery. now rewrite C, T.
Qed.

Lemma typing_sends_one_query_witness :
  let keys := [("s", 250%N); ("sp", 250%N); ("spr", 250%N); ("spri", 250%N)] in
  let st' := Search.run Search.City (Search.init Search.City) (typing keys) in
  Search.issued st' = []
  /\ Search.issued (Search.step Search.City st' (Search.Tick 300))
     = [Search.searchQuery Search.City
          (firstPage (Search.initialView Search.City)) "spri"].
Proof.
  intros keys st'.
  destruct (typing_sends_one_query Search.City (Search.init Search.City)
              keys 300) as (H1 & _ & H3).
  - discriminate.
  - cbn. repeat split; try discriminate; reflexivity.
  - discriminate.
  - split; [exact H1 | exact H3].
Defined.

(** ** Failed searches *)

Lemma step_keeps_error (e : Search.Entity) (st : Search.State)
  (ev : Search.Event) :
  Search.error (Search.view st) <> None ->
  Search.error (Search.view (Search.step e st ev)) <> None.
Proof.
  intro H. destruct ev as [t|pr|np|n| |dt|id r]; cbn [Search.step];
    rewrite ?view_render; try exact H.
  - unfold Search.advance. destruct (Search.timer st) as [p|]; [|exact H].
    destruct (_ <=? _)%N; exact H.
  - unfold Search.resume. destruct (Search.lookup _ _); [|exact H].
    destruct r; cbn; [exact H | discriminate].
Qed.

(** X17.  When a list query fails, the table keeps the rows and the total
    it showed, the spinner stops and the banner reads "Failed to search
    ..." for the page's entity.  No event on the search side (typing,
    sorting, paging, refresh, timer, a later answer, successful or not)
    ever clears an error banner. *)
Theorem failed_search (e : Search.Entity) (st : Search.State) :
  (forall id q err,
     Search.lookup id (Search.inflight st) = Some q ->
     let st' := Search.step e st (Search.Response id (Gateway.ListErr err)) in
     Search.error (Search.view st') = Some (Search.searchFailed e)
     /\ Search.rows (Search.view st') = Search.rows (Search.view st)
     /\ Search.totalCount (Search.view st')
        = Search.totalCount (Search.view st)
     /\ Search.loading (Search.view st') = false)
  /\ (forall evs,
        Search.error (Search.view st) <> None ->
        Search.error (Search.view (Search.run e st evs)) <> None).
Proof.
  split.
  - intros id q err Hl st'. subst st'. cbn [Search.step].
    unfold Search.resume. rewrite Hl. repeat split.
  - intros evs. revert st. induction evs as [|ev evs IH]; intros st H;
      [exact H|].
    apply (IH (Search.step e st ev)). now apply step_keeps_error.
Qed.

Lemma failed_search_witness :
  let sent := Search.run Search.Company (Search.init Search.Company)
                [Search.Tick 300] in
  let st' :=
    Search.step Search.Company sent
      (Search.Response 0
         (Gateway.ListErr {| Gateway.code := "500";
                             Gateway.message := "timeout" |})) in
  Search.error (Search.view st') = Some "Failed to search companies"
  /\ Search.error
       (Search.view
          (Search.run Search.Company st'
             [Search.SearchChange "a"; Search.Tick 300;
              Search.Response 1 (Gateway.runList twoCompanies
                                   (companyQuery "a"))])) <> None.
Proof.
  intros sent st'.
  destruct (failed_search Search.Company sent) as [H1 _].
  destruct (H1 0%nat (companyQuery "")
              {| Gateway.code := "500"; Gateway.message := "timeout" |}
              eq_refl) as (He & _).
  split; [exact He|].
  apply (proj2 (failed_search Search.Company st')).
  fold st' in He. rewrite He. discriminate.
Defined.

(** ** Paging through a result *)

Lemma firstn_plus {A : Type} (a b : nat) (l : list A) :
  firstn (a + b) l = firstn a l ++ firstn b (skipn a l).
Proof.
  revert l. induction a as [|a IH]; intro l; [reflexivity|].
  destruct l as [|x l]; cbn [Nat.add firstn skipn app].
  - now rewrite firstn_nil.
  - now rewrite IH.
Qed.

Lemma pageQuery_matching (e : Search.Entity) (orderBy : string)
  (order : Search.Order) (n : Z) (term : string) (rows : list Gateway.Row)
  (p : nat) :
  Gateway.matching rows (pageQuery e orderBy order n term p)
  = Gateway.matching rows (pageQuery e orderBy order n term 0).
Proof. reflexivity. Qed.

Lemma pageQuery_data (e : Search.Entity) (orderBy : string)
  (order : Search.Order) (n : Z) (term : string) (rows : list Gateway.Row)
  (p : nat) :
  0 < n ->
  dataOf (Gateway.runList rows (pageQuery e orderBy order n term p))
  = firstn (Z.to_nat n)
      (skipn (p * Z.to_nat n)
         (Gateway.matching rows (pageQuery e orderBy order n term 0))).
Proof.
  intro Hn. unfold Gateway.runList. cbn [dataOf].
  rewrite pageQuery_matching.
  change (Gateway.l_from (pageQuery e orderBy order n term p))
    with (Z.of_nat p * n).
  change (Gateway.l_to (pageQuery e orderBy order n term p))
    with ((Z.of_nat p + 1) * n - 1).
  rewrite window_page by lia.
  replace (Z.to_nat (Z.of_nat p * n)) with (p * Z.to_nat n)%nat by nia.
  reflexivity.
Qed.

(** X18.  The windows of consecutive pages neither overlap nor leave a
    gap: each page's first row index is the previous page's last plus one,
    and the rows returned for the pages 0 to [k - 1], put end to end, are
    the first [k * rowsPerPage] rows of the filtered, sorted result, each
    once and in order. *)
Theorem pages_tile (e : Search.Entity) (orderBy : string)
  (order : Search.Order) (n : Z) (term : string) (rows : list Gateway.Row)
  (k : nat) :
  0 < n ->
  (forall p,
     Gateway.l_from (pageQuery e orderBy order n term (S p))
     = Gateway.l_to (pageQuery e orderBy order n term p) + 1)
  /\ concat (map (fun p =>
                    dataOf (Gateway.runList rows
                              (pageQuery e orderBy order n term p)))
                 (seq 0 k))
     = firstn (k * Z.to_nat n)
         (Gateway.matching rows (pageQuery e orderBy order n term 0)).
Proof.
  intro Hn. split.
  - intro p. unfold pageQuery, Search.searchQuery.
    cbn [Gateway.l_from Gateway.l_to Search.c_page Search.c_rowsPerPage].
    lia.
  - induction k as [|k IH]; [reflexivity|].
    rewrite seq_S, map_app, concat_app, IH. cbn [Nat.add map concat].
    rewrite app_nil_r, (pageQuery_data _ _ _ _ _ _ _ Hn).
    replace (S k * Z.to_nat n)%nat with (k * Z.to_nat n + Z.to_nat n)%nat
      by lia.
    now rewrite firstn_plus.
Qed.

Lemma pages_tile_witness :
  concat (map (fun p =>
                 dataOf (Gateway.runList table47
                           (pageQuery Search.City "id" Search.asc 15 "" p)))
              (seq 0 4))
  = Gateway.matching table47 (pageQuery Search.City "id" Search.asc 15 "" 0).
Proof.
  rewrite (proj2 (pages_tile Search.City "id" Search.asc 15 "" table47 4
                    eq_refl)).
  reflexivity.
Defined.

(** ** Saving an edited row under its own name *)

Lemma runSelect_own (rows : list Gateway.Row) (eqs : Gateway.Fields)
  (i : string) :
  (forall r, In r rows ->
             forallb (fun kv => Gateway.valueEqb (Gateway.get (fst kv) r)
                                                 (snd kv)) eqs = true ->
             Gateway.get "id" r = Gateway.VStr i) ->
  Gateway.runSelect rows eqs (Some i) = [].
Proof.
  intro H. unfold Gateway.runSelect.
  induction rows as [|x l IH]; [reflexivity|].
  cbn [filter]. rewrite IH by (intros r Hr; apply H; now right).
  unfold Gateway.selected.
  destruct (forallb _ eqs) eqn:E; [|reflexivity].
  rewrite (H x (or_introl eq_refl) E). cbn.
  now rewrite String.eqb_refl.
Qed.

(** X19.  Opening a row with Edit and saving it under the name it already
    has is not refused as a duplicate of itself: the pre-check leaves out
    the row's own id, so when no other row carries the name (within the
    same parent, on the city and district pages) it finds nothing and the
    update of that row is sent.  Stated for the five pages sharing the two
    form shapes; the row's name is one the page could have stored (valid
    and trimmed). *)
Theorem edit_keeps_own_name (rows : list Gateway.Row)
  (write : Gateway.Request -> option Gateway.PgError) (u : User) :
  (forall (L : NameForm.Labels) (row : NameForm.Item) (st : NameForm.State),
     JS.isEmpty (NameForm.id row) = false ->
     NameForm.validateName (NameForm.name row) = true ->
     JS.trim (NameForm.name row) = NameForm.name row ->
     (forall r, In r rows ->
                Gateway.get "name" r = Gateway.VStr (NameForm.name row) ->
                Gateway.get "id" r = Gateway.VStr (NameForm.id row)) ->
     requests (NameForm.handleSubmit L (Gateway.serve rows write) (Some u)
                 (NameForm.handleEdit row st))
     = [Gateway.Select (NameForm.table L)
          [("name", Gateway.VStr (NameForm.name row))]
          (Some (NameForm.id row));
        Gateway.Update (NameForm.table L)
          [("name", Gateway.VStr (NameForm.name row));
           ("updated_by", Gateway.VStr (user_id u))]
          (NameForm.id row)])
  /\ (forall (L : ScopedForm.Labels) (row : ScopedForm.Item)
             (st : ScopedForm.State),
        JS.isEmpty (ScopedForm.id row) = false ->
        ScopedForm.validateName (ScopedForm.name row) = true ->
        JS.trim (ScopedForm.name row) = ScopedForm.name row ->
        JS.isEmpty (ScopedForm.parent_id row) = false ->
        (forall r, In r rows ->
                   Gateway.get "name" r = Gateway.VStr (ScopedForm.name row) ->
                   Gateway.get (ScopedForm.parentColumn L) r
                   = Gateway.VStr (ScopedForm.parent_id row) ->
                   Gateway.get "id" r = Gateway.VStr (ScopedForm.id row)) ->
        requests (ScopedForm.handleSubmit L (Gateway.serve rows write)
                    (Some u) (ScopedForm.handleEdit row st))
        = [Gateway.Select (ScopedForm.table L)
             [("name", Gateway.VStr (ScopedForm.name row));
              (ScopedForm.parentColumn L,
               Gateway.VStr (ScopedForm.parent_id row))]
             (Some (ScopedForm.id row));
           Gateway.Update (ScopedForm.table L)
             [("name", Gateway.VStr (ScopedForm.name row));
              (ScopedForm.parentColumn L,
               Gateway.VStr (ScopedForm.parent_id row));
              ("updated_by", Gateway.VStr (user_id u))]
             (ScopedForm.id row)]).
Proof.
  split.
  - intros L row st Hid Hv Ht Hown.
    unfold NameForm.handleSubmit, NameForm.handleEdit, Dialog.edit.
    cbn [Dialog.formData Dialog.editing NameForm.f_name truthyId].
    rewrite Hv, Ht, Hid. cbn [negb Gateway.serve].
    rewrite runSelect_own.
    + cbn [Gateway.maybeSingle]. destruct (write _); reflexivity.
    + intros r Hr Hsel. cbn [forallb fst snd] in Hsel.
      rewrite andb_true_r in Hsel. apply valueEqb_VStr in Hsel.
      now apply Hown.
  - intros L row st Hid Hv Ht Hp Hown.
    unfold ScopedForm.handleSubmit, ScopedForm.handleEdit, Dialog.edit.
    cbn [Dialog.formData Dialog.editing ScopedForm.f_name
         ScopedForm.f_parent_id truthyId].
    rewrite Hv, Ht, Hid, Hp. cbn [negb Gateway.serve].
    rewrite runSelect_own.
    + cbn [Gateway.maybeSingle]. destruct (write _); reflexivity.
    + intros r Hr Hsel. cbn [forallb fst snd] in Hsel.
      rewrite andb_true_r in Hsel.
      apply andb_true_iff in Hsel as [H1 H2].
      apply valueEqb_VStr in H1, H2. now apply Hown.
Qed.

Lemma edit_keeps_own_name_witness :
  map isWrite
      (requests (CityList.handleSubmit
                   (Gateway.serve springfieldTable (fun _ => None))
                   (Some {| user_id := "u1" |})
                   (ScopedForm.handleEdit springfield
                      (scopedDialog "" ""))))
  = [false; true].
Proof.
  unfold CityList.handleSubmit.
  rewrite (proj2 (edit_keeps_own_name springfieldTable (fun _ => None)
                    {| user_id := "u1" |})
             CityList.labels springfield (scopedDialog "" "")
             eq_refl eq_refl eq_refl eq_refl).
  - reflexivity.
  - intros r [<-|[]] _ _. reflexivity.
Defined.

(** ** The dashboard's factory filter *)

Lemma startsWith_append (a b s : string) :
  JS.startsWith (String.append a b) s = true -> JS.startsWith a s = true.
Proof.
  revert s. induction a as [|c a IH]; intro s; [reflexivity|].
  cbn [String.append JS.startsWith]. destruct s as [|d s]; [discriminate|].
  intro H. apply andb_true_iff in H as [H1 H2]. now rewrite H1, (IH _ H2).
Qed.

Lemma includes_append (s a b : string) :
  JS.includes s (String.append a b) = true -> JS.includes s a = true.
Proof.
  induction s as [|c s IH]; cbn [JS.includes]; intro H.
  - rewrite orb_false_r in *. now apply startsWith_append in H.
  - apply orb_true_iff in H as [H|H].
    + now rewrite (startsWith_append _ _ _ H).
    + rewrite (IH H). apply orb_true_r.
Qed.

Lemma includes_empty (s : string) : JS.includes s "" = true.
Proof. destruct s; reflexivity. Qed.

Lemma filter_narrow {A : Type} (p q : A -> bool) (l : list A) :
  (forall x, p x = true -> q x = true) ->
  filter p l = filter p (filter q l).
Proof.
  intro H. induction l as [|x l IH]; [reflexivity|].
  cbn [filter]. destruct (p x) eqn:Ep.
  - rewrite (H x Ep). cbn [filter]. now rewrite Ep, IH.
  - destruct (q x); [cbn [filter]; rewrite Ep|]; exact IH.
Qed.

(** X20.  With an empty search box and the status "all" the dashboard's
    filter shows every factory of the sorted list; typing further
    characters after a term only ever removes factories from what the term
    showed, leaving the others in place; and a status other than "all"
    shows only factories of exactly that status. *)
Theorem dashboard_filter (sorted : list Dashboard.FactoryStatus)
  (term more statusFilter : string) :
  Dashboard.filteredFactories sorted "" "all" = sorted
  /\ Dashboard.filteredFactories sorted (String.append term more) statusFilter
     = Dashboard.filteredFactories
         (Dashboard.filteredFactories sorted term statusFilter)
         (String.append term more) statusFilter
  /\ (String.eqb statusFilter "all" = false ->
      forallb (fun f => String.eqb (Dashboard.status f) statusFilter)
              (Dashboard.filteredFactories sorted term statusFilter) = true).
Proof.
  unfold Dashboard.filteredFactories. split; [|split].
  - induction sorted as [|f l IH]; [reflexivity|].
    cbn [filter]. unfold Dashboard.shown at 1.
    cbn [JS.toLowerCase String.eqb Ascii.eqb]. rewrite includes_empty.
    cbn. now rewrite IH.
  - apply filter_narrow. intro f. unfold Dashboard.shown.
    rewrite toLowerCase_append, !andb_true_iff. intros [H1 H2].
    split; [now apply includes_append in H1 | exact H2].
  - intro Hall. apply forallb_forall. intros f Hf.
    apply filter_In in Hf as [_ Hs]. unfold Dashboard.shown in Hs.
    rewrite Hall in Hs. apply andb_true_iff in Hs. tauto.
Qed.

Lemma dashboard_filter_witness :
  let alpha := {| Dashboard.id := "1"; Dashboard.name := "Factory Alpha";
                  Dashboard.status := "running"; Dashboard.oee_score := 92;
                  Dashboard.energy_usage := 450 |} in
  let beta := {| Dashboard.id := "2"; Dashboard.name := "Factory Beta";
                 Dashboard.status := "warning"; Dashboard.oee_score := 78;
                 Dashboard.energy_usage := 380 |} in
  forallb (fun f => String.eqb (Dashboard.status f) "warning")
          (Dashboard.filteredFactories [alpha; beta] "FACTORY" "warning")
  = true
  /\ Dashboard.filteredFactories [alpha; beta] "FACTORY" "warning" = [beta].
Proof.
  intros alpha beta. split; [|reflexivity].
  exact (proj2 (proj2 (dashboard_filter [alpha; beta] "FACTORY" ""
                         "warning")) eq_refl).
Defined.

(** ** The sidebar's menus *)

Lemma isExpanded_toggle (title t : string) (m : Sidebar.Expanded) :
  Sidebar.isExpanded (Sidebar.toggleSubmenu title m) t
  = if String.eqb title t then negb (Sidebar.isExpanded m title)
    else Sidebar.isExpanded m t.
Proof.
  unfold Sidebar.toggleSubmenu. cbn [Sidebar.isExpanded].
  destruct (String.eqb_spec title t) as [->|]; reflexivity.
Qed.

(** What is drawn depends on the record only through the truth of its
    entries. *)
Lemma renderMenuItem_ext (m m' : Sidebar.Expanded) :
  (forall t, Sidebar.isExpanded m t = Sidebar.isExpanded m' t) ->
  forall item, Sidebar.renderMenuItem m item = Sidebar.renderMenuItem m' item.
Proof.
  intro H.
  fix IH 1. intros [title path submenu].
  cbn [Sidebar.renderMenuItem]. rewrite (H title). f_equal.
  destruct (_ && _); [|reflexivity].
  induction submenu as [|x l IHl]; [reflexivity|].
  now rewrite (IH x), IHl.
Qed.

(** X21.  Clicking a menu title flips whether that menu is expanded and
    no other menu's state (menus are keyed by title), and two clicks on
    the same title leave the whole sidebar drawn as before. *)
Theorem sidebar_toggle (title : string) (m : Sidebar.Expanded) :
  Sidebar.isExpanded (Sidebar.toggleSubmenu title m) title
  = negb (Sidebar.isExpanded m title)
  /\ (forall t, t <> title ->
        Sidebar.isExpanded (Sidebar.toggleSubmenu title m) t
        = Sidebar.isExpanded m t)
  /\ (forall item,
        Sidebar.renderMenuItem
          (Sidebar.toggleSubmenu title (Sidebar.toggleSubmenu title m)) item
        = Sidebar.renderMenuItem m item).
Proof.
  split; [|split].
  - rewrite isExpanded_toggle. now rewrite String.eqb_refl.
  - intros t Hne. rewrite isExpanded_toggle.
    destruct (String.eqb_spec title t) as [->|]; [contradiction|reflexivity].
  - apply renderMenuItem_ext. intro t. rewrite !isExpanded_toggle.
    rewrite String.eqb_refl.
    destruct (String.eqb_spec title t) as [->|]; [|reflexivity].
    apply negb_involutive.
Qed.

Lemma sidebar_toggle_witness :
  let clicked := Sidebar.toggleSubmenu "Data Entry" Sidebar.initial in
  Sidebar.isExpanded clicked "Data Entry" = false
  /\ Sidebar.isExpanded clicked "Settings" = false.
Proof.
  destruct (sidebar_toggle "Data Entry" Sidebar.initial) as (H1 & H2 & _).
  split.
  - rewrite H1. reflexivity.
  - rewrite (H2 "Settings"); [reflexivity | discriminate].
Defined.

(** ** What the pre-check checks *)

(** X22.  On the seven pages with a pre-check, whenever a submit goes on
    to write, the pre-check was about exactly what is written: the name it
    looked for is the name stored (the trimmed one), every parent column
    it was scoped by is written with the same value, and the id it left
    out, if any, is the id of the updated row. *)
Theorem precheck_matches_write (gw : Gateway.Backend) (user : option User)
  (p : Page) (q w : Gateway.Request) :
  requests (submit gw user p) = [q; w] ->
  checksWhatIsWritten q w = true.
Proof.
  destruct p; open_submit; unfold truthyId; branch; cbn [requests];
    intro H; try discriminate H; injection H as <- <-;
    cbn; rewrite ?String.eqb_refl; reflexivity.
Qed.

Lemma precheck_matches_write_witness :
  checksWhatIsWritten (cityPreCheck (scopedDialog " SPRINGFIELD " "ca"))
                      (cityWrite {| user_id := "u1" |}
                                 (scopedDialog " SPRINGFIELD " "ca"))
  = true.
Proof.
  apply (precheck_matches_write
           (Gateway.serve springfieldTable (fun _ => None))
           (Some {| user_id := "u1" |})
           (OnCity (scopedDialog " SPRINGFIELD " "ca"))).
  reflexivity.
Defined.
